(** * PDF text extraction service: parser.py and app.py

    A shallow embedding of [pdf_parser/parser.py] and of the two Flask
    endpoints of [app.py], with the properties of the extraction result
    and of the error mapping proved over it.

    The two libraries the program delegates to are not part of it and are
    modelled by what the program observes of them:
    - pypdf: a reader object is the record [Reader] (its Info dictionary
      and its pages, each page carrying the outcome of [extract_text]);
      the constructor call [pypdf.PdfReader(io.BytesIO(data))] is the
      argument [PdfReader] of the functions that make it;
    - Flask: a request is a record and [jsonify] builds a JSON value;
      the reading of [request.files] under [MAX_CONTENT_LENGTH] is the
      argument [flask] of the upload endpoint, which may abort the
      request, and what is proved of the size ceiling is proved of every
      [flask] that refuses a body longer than the configured length.

    Python [str] values are [string]s whose characters are the code points
    below 256; integers that count pages are [nat], byte sizes are [Z].

    The command line [_cli] of [app.py] is embedded from the parsed
    arguments on, with [print] as an argument that may raise, and the
    document builder [_make_pdf_bytes] of
    [tests/test_pdf_parser.py] in full, with byte strings as [string]s
    (the text it formats is ASCII, which [encode] leaves as it is). *)

From Stdlib Require Import ZArith Ascii String DecimalString DecimalNat Lia.
From stdpp Require Import base option list strings gmap.

(** ** Python string operations *)

Module PyStr.

(** [str.isspace] of one character, for the code points below 256:
    U+0009..U+000D, U+001C..U+0020, U+0085 and U+00A0. *)
Definition isspace (c : ascii) : bool :=
  let n := nat_of_ascii c in
  ((9 <=? n) && (n <=? 13) || (28 <=? n) && (n <=? 32)
   || (n =? 133) || (n =? 160))%nat.

Fixpoint lstrip (s : string) : string :=
  match s with
  | EmptyString => EmptyString
  | String c s' => if isspace c then lstrip s' else s
  end.

Fixpoint rstrip (s : string) : string :=
  match s with
  | EmptyString => EmptyString
  | String c s' =>
      match rstrip s' with
      | EmptyString => if isspace c then EmptyString else String c EmptyString
      | r => String c r
      end
  end.

(** [s.strip()]: leading and trailing whitespace removed. *)
Definition strip (s : string) : string := rstrip (lstrip s).

(** Truth value of a string: [bool(s)], false exactly on the empty string. *)
Definition truthy (s : string) : bool :=
  match s with EmptyString => false | String _ _ => true end.

(** Every character of [s] is whitespace. *)
Fixpoint all_space (s : string) : bool :=
  match s with
  | EmptyString => true
  | String c s' => isspace c && all_space s'
  end.

(** First and last character of a string. *)
Definition first_char (s : string) : option ascii :=
  match s with EmptyString => None | String c _ => Some c end.

Fixpoint last_char (s : string) : option ascii :=
  match s with
  | EmptyString => None
  | String c EmptyString => Some c
  | String _ s' => last_char s'
  end.

(** [str.lower] of one character, for the code points below 256:
    A..Z and the capital letters U+00C0..U+00DE (U+00D7 is the
    multiplication sign) are moved 32 up. *)
Definition lower_char (c : ascii) : ascii :=
  let n := nat_of_ascii c in
  if ((65 <=? n) && (n <=? 90)
      || (192 <=? n) && (n <=? 222) && negb (n =? 215))%nat
  then ascii_of_nat (n + 32) else c.

Fixpoint lower (s : string) : string :=
  match s with
  | EmptyString => EmptyString
  | String c s' => String (lower_char c) (lower s')
  end.

(** [s.endswith(suffix)]. *)
Definition endswith (s suffix : string) : bool :=
  let n := String.length s in
  let m := String.length suffix in
  if (m <=? n)%nat then String.eqb (substring (n - m) m s) suffix else false.

(** [sub in s]: [sub] occurs in [s] as a contiguous run. *)
Fixpoint contains (sub s : string) : bool :=
  String.prefix sub s
  || match s with
     | EmptyString => false
     | String _ s' => contains sub s'
     end.

(** [str(n)] and the [{n}] field of an f-string, for a non-negative int. *)
Definition str_of_nat (n : nat) : string :=
  NilEmpty.string_of_uint (Nat.to_uint n).

End PyStr.

Import PyStr.

(** ** Exceptions *)

(** The exception classes the [except] clauses of the program tell apart.
    [PdfReadError] stands for [pypdf.errors.PdfReadError] and its
    subclasses, [OtherException] for every other [Exception]. *)
Inductive ExnClass : Set :=
  | FileNotFoundError
  | ValueError
  | PdfReadError
  | OtherException.

Record exn : Set := Exn { exn_class : ExnClass; exn_msg : string }.

Global Instance ExnClass_eq_dec : EqDecision ExnClass.
Proof. solve_decision. Defined.

(** A computation that returns a value or raises. *)
Inductive outcome (A : Type) : Type :=
  | Return (a : A)
  | Raise (e : exn).

Arguments Return {A} a.
Arguments Raise {A} e.

(** Sequencing: an exception raised by the first computation propagates.
    Written [x ← m; k]. *)
Global Instance outcome_bind : MBind outcome := λ A B k m,
  match m with
  | Return a => k a
  | Raise e => Raise e
  end.

(** ** pypdf objects, as the program observes them *)

(** A page: the only thing read from it is [page.extract_text()], which
    returns a string or [None], or raises. *)
Record Page : Type := { extract_text : outcome (option string) }.

(** A reader. [reader_metadata] is [reader.metadata]: [None], or the Info
    dictionary with every value given by its [str()]. [reader_pages] is
    [reader.pages]. [reader_repaired] records that pypdf, in its default
    non-strict mode, met structural damage and recovered from it with a
    log message; no attribute that parser.py reads depends on it. *)
Record Reader : Type := {
  reader_metadata : option (gmap string string);
  reader_pages : list Page;
  reader_repaired : bool
}.

(** ** The extraction result *)

Record Metadata : Type := {
  title : option string;
  author : option string;
  creation_date : option string;
  num_pages : nat
}.

Record PageEntry : Type := { page : nat; text : string }.

Record ExtractionResult : Type := {
  metadata : Metadata;
  pages : list PageEntry;
  warnings : list string
}.

(** ** parser.py *)

(** [reader.metadata or {}] *)
Definition metadata_or_empty (m : option (gmap string string))
  : gmap string string :=
  match m with
  | Some d => if decide (d = ∅) then ∅ else d
  | None => ∅
  end.

(** [_clean(value)]: [value] is [None] or an object given by its [str()]. *)
Definition _clean (value : option string) : option string :=
  match value with
  | None => None
  | Some v => let s := strip v in if truthy s then Some s else None
  end.

(** [_extract_metadata(reader)]. The record [Reader] holds the values of
    [reader.metadata] and [reader.pages] as pypdf gave them: a reader on
    which pypdf raises while these two are read is not among the readers
    of this embedding, and nothing below speaks of it. *)
Definition _extract_metadata (reader : Reader) : Metadata :=
  let meta := metadata_or_empty (reader_metadata reader) in
  {| title := _clean (meta !! "/Title");
     author := _clean (meta !! "/Author");
     creation_date := _clean (meta !! "/CreationDate");
     num_pages := length (reader_pages reader) |}.

(** [page.extract_text() or EMPTY], [EMPTY] being the empty string. *)
Definition text_or_empty (t : option string) : string :=
  match t with
  | Some s => if truthy s then s else EmptyString
  | None => EmptyString
  end.

(** The state of the loop of [_extract_pages]. *)
Record LoopState : Type := {
  acc_pages : list PageEntry;
  image_only_pages : nat
}.

(** One iteration of [for i, page in enumerate(reader.pages, start=1)]. *)
Definition loop_body (i : nat) (pg : Page) (st : LoopState) : outcome LoopState :=
  t ← extract_text pg;
  let text := text_or_empty t in
  let text := strip text in
  let count :=
    if negb (truthy text) then image_only_pages st + 1 else image_only_pages st in
  Return {| acc_pages := acc_pages st ++ [{| page := i; text := text |}];
            image_only_pages := count |}.

(** The loop over the pages still to visit, [i] being the number of the
    next one. *)
Fixpoint pages_loop (i : nat) (ps : list Page) (st : LoopState) : outcome LoopState :=
  match ps with
  | [] => Return st
  | pg :: rest => st' ← loop_body i pg st; pages_loop (S i) rest st'
  end.

Definition scanned_warning : string :=
  "This PDF appears to be a scanned/image-only document. " +:+
  "No text could be extracted. Consider using an OCR tool " +:+
  "(e.g. ocrmypdf or Tesseract) to convert it first.".

Definition partial_warning (image_only total : nat) : string :=
  str_of_nat image_only +:+ " of " +:+ str_of_nat total +:+
  " page(s) appear to be " +:+
  "image-only and yielded no extractable text.".

Definition _extract_pages (reader : Reader)
  : outcome (list PageEntry * list string) :=
  st ← pages_loop 1 (reader_pages reader)
         {| acc_pages := []; image_only_pages := 0 |};
  let warnings : list string := [] in
  let warnings :=
    if (0 <? image_only_pages st)%nat then
      let total := length (reader_pages reader) in
      if (image_only_pages st =? total)%nat
      then warnings ++ [scanned_warning]
      else warnings ++ [partial_warning (image_only_pages st) total]
    else warnings in
  Return (acc_pages st, warnings).

(** The pypdf constructor call [pypdf.PdfReader(io.BytesIO(data))]: it
    returns a reader or raises. The functions below take it as the
    argument [PdfReader], so every property holds whatever pypdf does. *)
Abbreviation PdfReaderT := (list Byte.byte → outcome Reader).

Definition parse_pdf_bytes (PdfReader : PdfReaderT) (data : list Byte.byte)
  : outcome ExtractionResult :=
  reader ← PdfReader data;
  let metadata := _extract_metadata reader in
  pw ← _extract_pages reader;
  let '(pages, warnings) := pw in
  Return {| metadata := metadata; pages := pages; warnings := warnings |}.

(** What the file system holds at a path: nothing, something that is not
    a regular file (a directory, a socket, ...), or a regular file. *)
Inductive FsEntry : Type :=
  | Missing
  | NotRegular
  | RegularFile (content : list Byte.byte).

Abbreviation FileSystem := (string → FsEntry).

(** [path.exists()], [path.is_file()] and [path.read_bytes()]. *)
Definition path_exists (e : FsEntry) : bool :=
  match e with Missing => false | _ => true end.

Definition path_is_file (e : FsEntry) : bool :=
  match e with RegularFile _ => true | _ => false end.

Definition read_bytes (e : FsEntry) : outcome (list Byte.byte) :=
  match e with
  | RegularFile content => Return content
  | Missing => Raise (Exn FileNotFoundError "No such file or directory")
  | NotRegular => Raise (Exn OtherException "Is a directory")
  end.

(** [parse_pdf(path)]. Two things are simplified. The messages are
    formed from the path as it was given, where Python formats
    [Path(path)], which differs on a path not in normal form (a doubled
    or a trailing slash); nothing below depends on the text after the
    colon. And [path.exists()] and [path.is_file()] always answer, where
    they raise an [OSError] on a path the system refuses (a name too
    long, a directory that may not be searched): a file system in that
    state is not among the values of [FileSystem]. *)
Definition parse_pdf (fs : FileSystem) (PdfReader : PdfReaderT) (path : string)
  : outcome ExtractionResult :=
  if negb (path_exists (fs path)) then
    Raise (Exn FileNotFoundError ("PDF file not found: " +:+ path))
  else if negb (path_is_file (fs path)) then
    Raise (Exn ValueError ("Path is not a file: " +:+ path))
  else
    data ← read_bytes (fs path);
    parse_pdf_bytes PdfReader data.

(** The path-based entry point as the composition it is meant to be: read
    the bytes of the file, then call the bytes-based entry point. *)
Definition read_then_parse (fs : FileSystem) (PdfReader : PdfReaderT)
    (path : string) : outcome ExtractionResult :=
  data ← read_bytes (fs path);
  parse_pdf_bytes PdfReader data.

(** ** app.py *)

(** JSON values, an object being the list of its members in the insertion
    order of the Python dict it comes from. *)
#[warning="-register-all"]
Inductive json : Type :=
  | JNull
  | JNum (n : Z)
  | JStr (s : string)
  | JArr (items : list json)
  | JObj (members : list (string * json)).

Definition json_of_option (o : option string) : json :=
  match o with Some s => JStr s | None => JNull end.

Definition json_of_metadata (m : Metadata) : json :=
  JObj [("title", json_of_option (title m));
        ("author", json_of_option (author m));
        ("creation_date", json_of_option (creation_date m));
        ("num_pages", JNum (Z.of_nat (num_pages m)))].

Definition json_of_page (p : PageEntry) : json :=
  JObj [("page", JNum (Z.of_nat (page p))); ("text", JStr (text p))].

Definition json_of_result (r : ExtractionResult) : json :=
  JObj [("metadata", json_of_metadata (metadata r));
        ("pages", JArr (json_of_page <$> pages r));
        ("warnings", JArr (JStr <$> warnings r))].

(** The names of the members of a JSON object. *)
Definition json_keys (j : json) : list string :=
  match j with JObj members => members.*1 | _ => [] end.

(** A response: its status code and its body, either a JSON document made
    by [jsonify] or the error page Flask renders for an aborted request. *)
Inductive Body : Type :=
  | JsonBody (j : json)
  | ErrorPage.

Record Response : Type := { status : Z; body : Body }.

(** [jsonify({"error": msg}), code] and [jsonify(result)]. *)
Definition error_response (msg : string) (code : Z) : Response :=
  {| status := code; body := JsonBody (JObj [("error", JStr msg)]) |}.

Definition result_response (r : ExtractionResult) : Response :=
  {| status := 200; body := JsonBody (json_of_result r) |}.

Definition client_error (r : Response) : bool :=
  ((400 <=? status r) && (status r <? 500))%Z.

Definition server_error (r : Response) : bool :=
  ((500 <=? status r) && (status r <? 600))%Z.

(** [app.config["MAX_CONTENT_LENGTH"]] *)
Definition MAX_CONTENT_LENGTH : Z := 50 * 1024 * 1024.

(** One part of a multipart upload: [uploaded.filename] and the bytes
    [uploaded.read()] gives. *)
Record FileStorage : Type := {
  filename : string;
  content : list Byte.byte
}.

(** A request to [/parse]: the length of its body and its file parts. *)
Record UploadRequest : Type := {
  content_length : Z;
  files : gmap string FileStorage
}.

(** What reading [request.files] gives: Flask aborts the request with an
    HTTP error of its own, or hands over the file parts. *)
Inductive FilesRead : Type :=
  | Aborted (code : Z)
  | Parts (parts : gmap string FileStorage).

(** Flask's reading of [request.files] under a configured
    [MAX_CONTENT_LENGTH]. It is an argument of the endpoint: what is known
    of it is that it refuses a body longer than the configured length with
    413 Request Entity Too Large; it may refuse requests for other reasons
    too. *)
Abbreviation FlaskT := (Z → UploadRequest → FilesRead).

Definition enforces_ceiling (flask : FlaskT) : Prop :=
  ∀ limit req, (limit < content_length req)%Z → flask limit req = Aborted 413.

(** The page Flask sends for an aborted request. *)
Definition abort_response (code : Z) : Response :=
  {| status := code; body := ErrorPage |}.

(** What serving a request did: the byte buffers handed to
    [parse_pdf_bytes], in call order, and the response sent. *)
Record Served : Type := {
  engine_calls : list (list Byte.byte);
  response : Response
}.

Definition reply (r : Response) : Served :=
  {| engine_calls := []; response := r |}.

(** The [try] block of both endpoints: the [except] clauses in their
    order. [not_found] tells whether the [FileNotFoundError] clause is
    there (it is in [api_parse_path] only). *)
Definition handle (not_found : bool) (e : exn) : Response :=
  match exn_class e with
  | FileNotFoundError =>
      if not_found then error_response (exn_msg e) 404
      else error_response (exn_msg e) 500
  | PdfReadError =>
      error_response ("Invalid or corrupted PDF: " +:+ exn_msg e) 422
  | _ => error_response (exn_msg e) 500
  end.

Definition api_parse_upload (flask : FlaskT) (PdfReader : PdfReaderT)
    (req : UploadRequest) : Served :=
  match flask MAX_CONTENT_LENGTH req with
  | Aborted code => reply (abort_response code)
  | Parts request_files =>
      match request_files !! "file" with
      | None => reply (error_response "No file field in request" 400)
      | Some uploaded =>
          if String.eqb (filename uploaded) EmptyString then
            reply (error_response "Empty filename" 400)
          else if negb (endswith (lower (filename uploaded)) ".pdf") then
            reply (error_response "Uploaded file must be a PDF" 400)
          else
            let data := content uploaded in
            {| engine_calls := [data];
               response :=
                 match parse_pdf_bytes PdfReader data with
                 | Return result => result_response result
                 | Raise exc => handle false exc
                 end |}
      end
  end.

(** A request to [/parse-url], given by [request.get_json(silent=True)]:
    [None], or a JSON object whose members are strings. *)
Definition api_parse_path (fs : FileSystem) (PdfReader : PdfReaderT)
    (request_json : option (gmap string string)) : Response :=
  let body := default ∅ request_json in
  let path := strip (default EmptyString (body !! "path")) in
  if negb (truthy path) then
    error_response "Missing 'path' in JSON body" 400
  else
    match parse_pdf fs PdfReader path with
    | Return result => result_response result
    | Raise exc => handle true exc
    end.

(** A value decoded from JSON, as [request.get_json] returns it; a float
    is given by whether it is non-zero, which is all the truth test
    reads. *)
#[warning="-register-all"]
Inductive pyvalue : Type :=
  | PyNone
  | PyBool (b : bool)
  | PyInt (n : Z)
  | PyFloat (nonzero : bool)
  | PyStr (s : string)
  | PyList (items : list pyvalue)
  | PyDict (members : list (string * pyvalue)).

(** [bool(v)] *)
Definition py_truthy (v : pyvalue) : bool :=
  match v with
  | PyNone => false
  | PyBool b => b
  | PyInt n => negb (n =? 0)%Z
  | PyFloat nonzero => nonzero
  | PyStr s => truthy s
  | PyList items => match items with [] => false | _ => true end
  | PyDict members => match members with [] => false | _ => true end
  end.

(** [d.get(key)] on a decoded object, the last of several members of one
    name being the one kept. *)
Definition dict_get (key : string) (members : list (string * pyvalue))
  : option pyvalue :=
  foldl (λ found kv, if decide (kv.1 = key) then Some kv.2 else found)
    None members.

(** The page Flask sends when an exception leaves the view function. *)
Definition internal_server_error : Response :=
  {| status := 500; body := ErrorPage |}.

(** [api_parse_path] on any decoded body [got], the value of
    [request.get_json(silent=True)]. [body.get] needs an object and
    [.strip()] a string: on anything else an [AttributeError] is raised
    before the [try], and leaves the function. On an object whose [path]
    is a string, or is missing, the endpoint goes on as [api_parse_path]
    above. *)
Definition api_parse_path_any (fs : FileSystem) (PdfReader : PdfReaderT)
    (got : pyvalue) : Response :=
  let body := if py_truthy got then got else PyDict [] in
  match body with
  | PyDict members =>
      match default (PyStr EmptyString) (dict_get "path" members) with
      | PyStr value =>
          api_parse_path fs PdfReader (Some {[ "path" := value ]})
      | _ => internal_server_error
      end
  | _ => internal_server_error
  end.

(** The decoded body [got] cannot be read for a path: it is a true value
    that is no object, or an object whose [path] member is no string. *)
Definition malformed (got : pyvalue) : Prop :=
  let body := if py_truthy got then got else PyDict [] in
  (∀ members, body ≠ PyDict members)
  ∨ ∃ members other,
      body = PyDict members
      ∧ dict_get "path" members = Some other
      ∧ ∀ v, other ≠ PyStr v.

(** The member of a JSON object under a name. *)
Definition json_get (key : string) (j : json) : option json :=
  match j with
  | JObj members => (λ found, found.2.2) <$> list_find (λ kv, kv.1 = key) members
  | _ => None
  end.

(** The JSON document [j] shows the result [r], with its pages or
    without: its members are [metadata], [pages] (if shown) and
    [warnings]; [metadata] has the four fields, an absent text field
    being null; every page is an object of its number and its text; every
    warning is a string. *)
Definition json_shows (j : json) (r : ExtractionResult) (with_pages : bool)
  : Prop :=
  json_keys j
    = (if with_pages then ["metadata"; "pages"; "warnings"]
       else ["metadata"; "warnings"])
  ∧ (∃ m, json_get "metadata" j = Some m
      ∧ json_keys m ≡ₚ ["title"; "author"; "creation_date"; "num_pages"]
      ∧ json_get "title" m = Some (from_option JStr JNull (title (metadata r)))
      ∧ json_get "author" m = Some (from_option JStr JNull (author (metadata r)))
      ∧ json_get "creation_date" m
        = Some (from_option JStr JNull (creation_date (metadata r)))
      ∧ json_get "num_pages" m = Some (JNum (Z.of_nat (num_pages (metadata r)))))
  ∧ json_get "pages" j
    = (if with_pages
       then Some (JArr ((λ p, JObj [("page", JNum (Z.of_nat (page p)));
                                   ("text", JStr (text p))]) <$> pages r))
       else None)
  ∧ json_get "warnings" j = Some (JArr (JStr <$> warnings r)).

(** *** The command line *)

(** The parsed arguments: [args.pdf] and [args.no_pages]. *)
Record Args : Type := { pdf : string; no_pages : bool }.

(** [result.items()], every value given as the JSON it is printed as. *)
Definition result_items (r : ExtractionResult) : list (string * json) :=
  [("metadata", json_of_metadata (metadata r));
   ("pages", JArr (json_of_page <$> pages r));
   ("warnings", JArr (JStr <$> warnings r))].

(** How [_cli] ends: it printed a JSON document on standard output and
    returned; or it printed a message on standard error and called
    [sys.exit]; or an exception left it. *)
Inductive CliRun : Type :=
  | CliPrinted (out : json)
  | CliExit (code : Z) (err : string)
  | CliUncaught (e : exn).

(** [print(json.dumps(...))] on the document to print: it returns, or it
    raises (the stream may refuse a character or be closed). *)
Abbreviation PrintT := (json → outcome unit).

(** [_cli()] from [parser.parse_args()] on. *)
Definition _cli (fs : FileSystem) (PdfReader : PdfReaderT) (print : PrintT)
    (args : Args) : CliRun :=
  match parse_pdf fs PdfReader (pdf args) with
  | Raise exc =>
      match exn_class exc with
      | FileNotFoundError | ValueError =>
          CliExit 1 ("Error: " +:+ exn_msg exc)
      | _ => CliUncaught exc
      end
  | Return result =>
      let result := result_items result in
      let result :=
        if no_pages args
        then filter (λ kv, kv.1 ≠ "pages") result
        else result in
      match print (JObj result) with
      | Return _ => CliPrinted (JObj result)
      | Raise exc => CliUncaught exc
      end
  end.

(** The exit status of the process: 0 after a normal return, the argument
    of [sys.exit], and 1 when the interpreter ends on an exception. *)
Definition exit_status (run : CliRun) : Z :=
  match run with
  | CliPrinted _ => 0
  | CliExit code _ => code
  | CliUncaught _ => 1
  end.

(** ** Sample inputs *)

(** A stand-in for pypdf with one page per input byte: the page's text is
    the byte as a character, the Info dictionary has a padded title and a
    blank author, and an empty buffer is refused as pypdf refuses it. *)
Definition sample_page (b : Byte.byte) : Page :=
  {| extract_text := Return (Some (String (ascii_of_byte b) EmptyString)) |}.

Definition sample_info : gmap string string :=
  {[ "/Title" := "  Annual report " ; "/Author" := "   " ]}.

Definition sample_PdfReader (repaired : bool) : PdfReaderT := λ data,
  match data with
  | [] => Raise (Exn PdfReadError "Cannot read an empty file")
  | _ => Return {| reader_metadata := Some sample_info;
                   reader_pages := sample_page <$> data;
                   reader_repaired := repaired |}
  end.

(** Three pages, the second blank; two blank pages; one page of text. *)
Definition sample_mixed : list Byte.byte := [Byte.x41; Byte.x20; Byte.x42].
Definition sample_blank : list Byte.byte := [Byte.x20; Byte.x0a].
Definition sample_text : list Byte.byte := [Byte.x41].

Definition sample_fs : FileSystem := λ path,
  if String.eqb path "/srv/a.pdf" then RegularFile sample_mixed
  else if String.eqb path "/srv" then NotRegular
  else Missing.

(** A stand-in for Flask: it refuses a body over the configured length,
    and also one over 500000 bytes, as a second limit of its own. *)
Definition sample_flask : FlaskT := λ limit req,
  if (limit <? content_length req)%Z then Aborted 413
  else if (500000 <? content_length req)%Z then Aborted 413
  else Parts (files req).

(** A standard output that takes everything, and one that is closed. *)
Definition sample_print : PrintT := λ _, Return ().

Definition sample_closed_print : PrintT :=
  λ _, Raise (Exn OtherException "Broken pipe").

Definition sample_upload (name : string) (size : Z) : UploadRequest :=
  {| content_length := size;
     files := {[ "file" := {| filename := name; content := sample_mixed |} ]} |}.

(** A stand-in whose second and third pages cannot be read. *)
Definition sample_broken_reader : Reader :=
  {| reader_metadata := None;
     reader_pages :=
       [ {| extract_text := Return (Some "A") |};
         {| extract_text := Raise (Exn PdfReadError "bad stream") |};
         {| extract_text := Raise (Exn OtherException "bad font") |} ];
     reader_repaired := false |}.

Definition sample_broken_PdfReader : PdfReaderT := λ _, Return sample_broken_reader.

(** A stand-in that cannot read anything, and a file system with one file. *)
Definition sample_corrupt_PdfReader : PdfReaderT :=
  λ _, Raise (Exn PdfReadError "EOF marker not found").

(** A stand-in with one page whose raw text is padded, one whose text is
    only whitespace and one without text. *)
Definition sample_padded_reader : Reader :=
  {| reader_metadata := Some {[ "/Producer" := "x" ]};
     reader_pages :=
       [ {| extract_text := Return (Some "  two words ") |};
         {| extract_text := Return (Some "   ") |};
         {| extract_text := Return None |} ];
     reader_repaired := false |}.

Definition sample_padded_PdfReader : PdfReaderT := λ _, Return sample_padded_reader.

(** A stand-in for a document without pages. *)
Definition sample_empty_reader : Reader :=
  {| reader_metadata := Some ∅; reader_pages := []; reader_repaired := false |}.

Definition sample_empty_PdfReader : PdfReaderT := λ _, Return sample_empty_reader.

Definition sample_padded_result : ExtractionResult :=
  {| metadata := {| title := None; author := None; creation_date := None;
                    num_pages := 3 |};
     pages := [ {| page := 1; text := "two words" |};
                {| page := 2; text := EmptyString |};
                {| page := 3; text := EmptyString |} ];
     warnings := [ "2 of 3 page(s) appear to be image-only and yielded no extractable text." ] |}.

(** Two readers of one page whose Info dictionaries differ in padding and
    in an entry that parser.py does not read. *)
Definition sample_reader_a : Reader :=
  {| reader_metadata := Some {[ "/Title" := "  Annual report " ]};
     reader_pages := [ sample_page Byte.x41 ];
     reader_repaired := false |}.

Definition sample_reader_b : Reader :=
  {| reader_metadata :=
       Some {[ "/Title" := "Annual report" ; "/Producer" := "pdfTeX" ]};
     reader_pages := [ sample_page Byte.x42 ];
     reader_repaired := false |}.

(** What the stand-in gives on the three sample buffers. *)
Definition sample_metadata (n : nat) : Metadata :=
  {| title := Some "Annual report"; author := None; creation_date := None;
     num_pages := n |}.

Definition sample_mixed_result : ExtractionResult :=
  {| metadata := sample_metadata 3;
     pages := [ {| page := 1; text := "A" |}; {| page := 2; text := EmptyString |};
                {| page := 3; text := "B" |} ];
     warnings := [ "1 of 3 page(s) appear to be image-only and yielded no extractable text." ] |}.

Definition sample_blank_result : ExtractionResult :=
  {| metadata := sample_metadata 2;
     pages := [ {| page := 1; text := EmptyString |};
                {| page := 2; text := EmptyString |} ];
     warnings := [ scanned_warning ] |}.

Definition sample_text_result : ExtractionResult :=
  {| metadata := sample_metadata 1;
     pages := [ {| page := 1; text := "A" |} ];
     warnings := [] |}.

(** The path a request to [/parse-url] asks for. *)
Definition requested_path (request_json : option (gmap string string)) : string :=
  strip (default EmptyString (default ∅ request_json !! "path")).

(** The entry the loop appends for page number [i] when [extract_text]
    returned [t], and the entries for a run of pages numbered from [i]. *)
Definition entry_of (i : nat) (t : option string) : PageEntry :=
  {| page := i; text := strip (text_or_empty t) |}.

Definition entries_from (i : nat) (texts : list (option string)) : list PageEntry :=
  imap (λ k, entry_of (i + k)) texts.

(** The number of entries of a result whose text is empty. *)
Definition image_only_count (l : list PageEntry) : nat :=
  length (filter (λ p, text p = EmptyString) l).

(** How a metadata field is to be reported, [source] being the entry of
    the Info dictionary ([None] when there is none) and [out] the field of
    the result: absent when there is no entry or the entry is blank, the
    stripped value otherwise, and never the empty string. *)
Definition reported_as (source out : option string) : Prop :=
  (source = None → out = None)
  ∧ (∀ v, source = Some v → strip v = EmptyString → out = None)
  ∧ (∀ v, source = Some v → strip v ≠ EmptyString → out = Some (strip v))
  ∧ out ≠ Some EmptyString.

(** The entry of the Info dictionary of a reader under [key]. *)
Definition info_entry (reader : Reader) (key : string) : option string :=
  d ← reader_metadata reader; d !! key.

(** ** tests/test_pdf_parser.py: the builder of sample documents *)

(** [_make_pdf_bytes] writes a small PDF by hand. Byte strings are
    [string]s, one character a byte; the page texts hold code points below
    256, which [encode("latin-1", errors="replace")] maps to themselves. *)
Module TestPdf.

(** The line feed byte. *)
Definition LF : string := String "010"%char EmptyString.

Definition _PDF_HEADER : string := "%PDF-1.4" +:+ LF.

Definition _encode_obj (num : nat) (content : string) : string :=
  (str_of_nat num +:+ " 0 obj" +:+ LF) +:+ content +:+ (LF +:+ "endobj" +:+ LF).

(** The variables the closure [add_obj] shares with [_make_pdf_bytes]. *)
Record Builder : Type := {
  objects : list string;
  offsets : list nat;
  buf : string
}.

(** [add_obj(content)]: the object number, and the variables afterwards. *)
Definition add_obj (content : string) (b : Builder) : nat * Builder :=
  let obj_num := length (objects b) + 1 in
  let offsets' := offsets b ++ [String.length (buf b)] in
  let raw := _encode_obj obj_num content in
  (obj_num,
   {| objects := objects b ++ [raw]; offsets := offsets'; buf := buf b +:+ raw |}).

(** The data of the content stream of a page. Encoding the text to
    Latin-1 leaves a text of code points below 256 as it is, one byte for
    each code point. *)
Definition stream_data (text : string) : string :=
  ("BT" +:+ LF +:+ "/F1 12 Tf" +:+ LF +:+ "50 750 Td" +:+ LF +:+ "(")
  +:+ text +:+ (") Tj" +:+ LF +:+ "ET").

Definition stream_content (text : string) : string :=
  ("<< /Length " +:+ str_of_nat (String.length (stream_data text)) +:+ " >>"
   +:+ LF +:+ "stream" +:+ LF)
  +:+ stream_data text +:+ (LF +:+ "endstream").

Definition font_content : string :=
  "<< /Type /Font /Subtype /Type1 /BaseFont /Helvetica >>".

Definition page_content (font_num stream_num : nat) : string :=
  "<< /Type /Page /MediaBox [0 0 612 792]" +:+ LF +:+
  "   /Resources << /Font << /F1 " +:+ str_of_nat font_num +:+ " 0 R >> >>"
  +:+ LF +:+
  "   /Contents " +:+ str_of_nat stream_num +:+ " 0 R" +:+ LF +:+
  "   /Parent 1 0 R >>".

(** The body of [for text in pages_text], on the builder variables and
    [page_obj_nums]. *)
Definition page_step (st : Builder * list nat) (text : string)
  : Builder * list nat :=
  let '(b, page_obj_nums) := st in
  let '(stream_num, b) := add_obj (stream_content text) b in
  let '(font_num, b) := add_obj font_content b in
  let '(page_num, b) := add_obj (page_content font_num stream_num) b in
  (b, page_obj_nums ++ [page_num]).

(** The builder variables before the loop. *)
Definition start : Builder :=
  {| objects := []; offsets := []; buf := _PDF_HEADER |}.

(** [sep.join(l)] *)
Fixpoint join (sep : string) (l : list string) : string :=
  match l with
  | [] => EmptyString
  | [x] => x
  | x :: rest => x +:+ sep +:+ join sep rest
  end.

(** [f"{n:010d}"]: decimal, padded with zeros on the left to ten digits. *)
Definition zfill10 (n : nat) : string :=
  let s := str_of_nat n in
  string_of_list_ascii (replicate (10 - String.length s) "0"%char) +:+ s.

(** The variables of [_make_pdf_bytes] when it returns; [result] is the
    value returned. *)
Record Locals : Type := {
  built : Builder;
  page_obj_nums : list nat;
  pages_num : nat;
  catalog_num : nat;
  xref_offset : nat;
  total : nat;
  xref : string;
  trailer : string;
  result : string
}.

(** The contents of the Pages node and of the catalog, the head and the
    lines of the cross-reference table, and the trailer. *)
Definition pages_content (page_obj_nums : list nat) (count : nat) : string :=
  let kids := join " " ((λ n, str_of_nat n +:+ " 0 R") <$> page_obj_nums) in
  "<< /Type /Pages /Kids [" +:+ kids +:+ "] /Count "
  +:+ str_of_nat count +:+ " >>".

Definition catalog_content (pages_num : nat) : string :=
  "<< /Type /Catalog /Pages " +:+ str_of_nat pages_num +:+ " 0 R >>".

Definition xref_head (total : nat) : string :=
  ("xref" +:+ LF) +:+ "0 " +:+ str_of_nat total +:+ LF
  +:+ "0000000000 65535 f " +:+ LF.

Definition xref_line (off : nat) : string :=
  zfill10 off +:+ " 00000 n " +:+ LF.

Definition trailer_text (total catalog_num xref_offset : nat) : string :=
  ("trailer" +:+ LF +:+ "<< /Size " +:+ str_of_nat total +:+ " /Root "
   +:+ str_of_nat catalog_num +:+ " 0 R >>" +:+ LF +:+ "startxref" +:+ LF
   +:+ str_of_nat xref_offset +:+ LF)
  +:+ ("%%EOF" +:+ LF).

Definition run_make_pdf_bytes (pages_text : list string) : Locals :=
  let st := foldl page_step (start, []) pages_text in
  let b := st.1 in
  let page_obj_nums := st.2 in
  let added := add_obj (pages_content page_obj_nums (length pages_text)) b in
  let pages_num := added.1 in
  let b := added.2 in
  let added := add_obj (catalog_content pages_num) b in
  let catalog_num := added.1 in
  let b := added.2 in
  let xref_offset := String.length (buf b) in
  let total := length (objects b) + 1 in
  let xref :=
    foldl (λ xref off, xref +:+ xref_line off) (xref_head total) (offsets b) in
  let trailer := trailer_text total catalog_num xref_offset in
  {| built := b; page_obj_nums := page_obj_nums; pages_num := pages_num;
     catalog_num := catalog_num; xref_offset := xref_offset; total := total;
     xref := xref; trailer := trailer;
     result := (buf b +:+ xref) +:+ trailer |}.

Definition _make_pdf_bytes (pages_text : list string) : string :=
  result (run_make_pdf_bytes pages_text).

(** [data[off:off + len(piece)] == piece] *)
Definition slice_is (data : string) (off : nat) (piece : string) : bool :=
  String.eqb (substring off (String.length piece) data) piece.

(** The head line of object number [num]. *)
Definition obj_head (num : nat) : string := str_of_nat num +:+ " 0 obj" +:+ LF.

(** What the builder keeps true: the buffer starts with the header; there
    is one offset per object; the object at index [k] is the encoding of
    some content under the number [k + 1]; and the offset at index [k] is
    a place of the buffer where that object stands in full. *)
Definition indexed (b : Builder) : Prop :=
  (∃ rest, buf b = _PDF_HEADER +:+ rest)
  ∧ length (offsets b) = length (objects b)
  ∧ (∀ k obj, objects b !! k = Some obj →
       ∃ content, obj = _encode_obj (k + 1) content)
  ∧ ∀ k off obj, offsets b !! k = Some off → objects b !! k = Some obj →
      ∃ before rest,
        buf b = before +:+ obj +:+ rest ∧ String.length before = off.

(** Reading the document back. [read_nat s] is the number a string of
    decimal digits denotes, as [int(s)] gives it. *)
Definition read_nat (s : string) : option nat :=
  match s with
  | EmptyString => None
  | _ => Nat.of_uint <$> NilEmpty.uint_of_string s
  end.

(** The lines of a cross-reference table after the first: each entry is
    the field of digits of a line, with the number it is to denote. *)
Definition table_lines (entries : list (string * nat)) : string :=
  foldr (λ entry rest, entry.1 +:+ (" 00000 n " +:+ LF) +:+ rest)
    EmptyString entries.

(** [entries] is the cross-reference table of the document [out], for
    [size] objects: the document ends by naming the place where the table
    stands; there stand the head line of the table, the line of the free
    entry and the lines of [entries]; and every field of digits has at
    least ten digits and reads as the number beside it. *)
Definition table_of (out : string) (size : nat) (entries : list (string * nat))
  : Prop :=
  ∃ body rest,
    out = body
          +:+ (("xref" +:+ LF +:+ "0 " +:+ str_of_nat size +:+ LF
                +:+ "0000000000 65535 f " +:+ LF) +:+ table_lines entries)
          +:+ rest
    ∧ (∃ before,
         out = before
               +:+ ("startxref" +:+ LF +:+ str_of_nat (String.length body)
                    +:+ LF +:+ "%%EOF" +:+ LF))
    ∧ ∀ k digits off, entries !! k = Some (digits, off) →
        read_nat digits = Some off ∧ 10 ≤ String.length digits.

End TestPdf.

(** ** Properties of the string operations *)

Module PyStrFacts.

Lemma truthy_false s : truthy s = false ↔ s = EmptyString.
Proof. destruct s; simpl; split; congruence. Qed.

Lemma truthy_true s : truthy s = true ↔ s ≠ EmptyString.
Proof. destruct s; simpl; split; congruence. Qed.

Lemma lstrip_first s c : first_char (lstrip s) = Some c → isspace c = false.
Proof.
  induction s as [|a s IH]; simpl; [discriminate|].
  destruct (isspace a) eqn:Ha; [exact IH|].
  simpl. intros [= <-]. exact Ha.
Qed.

Lemma lstrip_split s :
  ∃ p, s = p +:+ lstrip s ∧ all_space p = true.
Proof.
  induction s as [|a s (p & Hs & Hp)]; simpl.
  - by exists EmptyString.
  - destruct (isspace a) eqn:Ha.
    + exists (String a p). split.
      * change (String a s = String a (p +:+ lstrip s)). by f_equal.
      * simpl. by rewrite Ha, Hp.
    + by exists EmptyString.
Qed.

Lemma rstrip_cons a s :
  rstrip (String a s) =
    match rstrip s with
    | EmptyString => if isspace a then EmptyString else String a EmptyString
    | r => String a r
    end.
Proof. reflexivity. Qed.

Lemma rstrip_first s c : first_char (rstrip s) = Some c → first_char s = Some c.
Proof.
  destruct s as [|a s]; [done|]. rewrite rstrip_cons.
  destruct (rstrip s); [destruct (isspace a)|]; simpl; congruence.
Qed.

Lemma rstrip_last s c : last_char (rstrip s) = Some c → isspace c = false.
Proof.
  induction s as [|a s IH]; [discriminate|]. rewrite rstrip_cons.
  destruct (rstrip s) as [|b r] eqn:Hr.
  - destruct (isspace a) eqn:Ha; simpl; [discriminate|].
    intros [= <-]. exact Ha.
  - exact IH.
Qed.

Lemma rstrip_split s :
  ∃ q, s = rstrip s +:+ q ∧ all_space q = true.
Proof.
  induction s as [|a s (q & Hs & Hq)]; [by exists EmptyString|].
  rewrite rstrip_cons. destruct (rstrip s) as [|b r] eqn:Hr.
  - change (s = q) in Hs. subst q. destruct (isspace a) eqn:Ha.
    + exists (String a s). simpl. by rewrite Ha, Hq.
    + by exists s.
  - exists q. split; [|done].
    change (String a s = String a (String b r +:+ q)). by f_equal.
Qed.

Lemma strip_first s c : first_char (strip s) = Some c → isspace c = false.
Proof. intros H. apply rstrip_first in H. by apply lstrip_first in H. Qed.

Lemma strip_last s c : last_char (strip s) = Some c → isspace c = false.
Proof. apply rstrip_last. Qed.

(** [strip s] is [s] without a whitespace prefix and a whitespace suffix. *)
Lemma strip_split s :
  ∃ p q, s = p +:+ strip s +:+ q ∧ all_space p = true ∧ all_space q = true.
Proof.
  destruct (lstrip_split s) as (p & Hs & Hp).
  destruct (rstrip_split (lstrip s)) as (q & Hl & Hq).
  exists p, q. split; [|done]. unfold strip. by rewrite <- Hl.
Qed.

Lemma lstrip_id s :
  (∀ c, first_char s = Some c → isspace c = false) → lstrip s = s.
Proof.
  destruct s as [|a s]; [done|]. simpl. intros H.
  by rewrite (H a eq_refl).
Qed.

Lemma rstrip_id s :
  (∀ c, last_char s = Some c → isspace c = false) → rstrip s = s.
Proof.
  induction s as [|a s IH]; [done|]. intros H. rewrite rstrip_cons.
  destruct s as [|b s].
  - simpl. by rewrite (H a eq_refl).
  - rewrite IH; [done|]. intros c Hc. apply H. exact Hc.
Qed.

Lemma strip_idempotent s : strip (strip s) = strip s.
Proof.
  unfold strip at 1. rewrite lstrip_id by apply strip_first.
  apply rstrip_id, strip_last.
Qed.

Lemma append_assoc s1 s2 s3 : (s1 +:+ s2) +:+ s3 = s1 +:+ s2 +:+ s3.
Proof.
  induction s1 as [|a s1 IH]; [done|].
  change (String a ((s1 +:+ s2) +:+ s3) = String a (s1 +:+ s2 +:+ s3)).
  by f_equal.
Qed.

Lemma prefix_app sub q : String.prefix sub (sub +:+ q) = true.
Proof.
  induction sub as [|a sub IH]; [by destruct q|].
  change (String.prefix (String a sub) (String a (sub +:+ q)) = true).
  simpl. destruct (ascii_dec a a); [exact IH|done].
Qed.

Lemma contains_unfold sub s :
  contains sub s =
    String.prefix sub s
    || match s with
       | EmptyString => false
       | String _ s' => contains sub s'
       end.
Proof. by destruct s. Qed.

Lemma contains_app sub p q : contains sub (p +:+ sub +:+ q) = true.
Proof.
  induction p as [|a p IH].
  - change (contains sub (sub +:+ q) = true).
    rewrite contains_unfold, prefix_app. done.
  - change (contains sub (String a (p +:+ sub +:+ q)) = true).
    rewrite contains_unfold, IH. apply orb_true_r.
Qed.

(** [sub in s] holds as soon as [s] splits around [sub]. *)
Lemma contains_intro sub s p q : s = p +:+ sub +:+ q → contains sub s = true.
Proof. intros ->. apply contains_app. Qed.

End PyStrFacts.

(** ** The loop of [_extract_pages] *)

Section Loop.

Import PyStrFacts.

Implicit Types (st : LoopState) (ps : list Page) (texts : list (option string)).

Lemma bind_Return {A B} (m : outcome A) (k : A → outcome B) b :
  m ≫= k = Return b → ∃ a, m = Return a ∧ k a = Return b.
Proof. destruct m as [a|e]; [by exists a|discriminate]. Qed.

Lemma image_only_count_cons p l :
  image_only_count (p :: l) =
    (if decide (text p = EmptyString) then 1 else 0) + image_only_count l.
Proof.
  unfold image_only_count. rewrite filter_cons.
  by destruct (decide (text p = EmptyString)).
Qed.

Lemma image_only_count_app l l' :
  image_only_count (l ++ l') = image_only_count l + image_only_count l'.
Proof. unfold image_only_count. by rewrite filter_app, length_app. Qed.

Lemma image_only_count_le l : image_only_count l ≤ length l.
Proof. apply length_filter. Qed.

Lemma entries_from_cons i t texts :
  entries_from i (t :: texts) = entry_of i t :: entries_from (S i) texts.
Proof.
  unfold entries_from. rewrite imap_cons, Nat.add_0_r. f_equal.
  apply imap_ext. intros k x _. simpl. f_equal. lia.
Qed.

Lemma length_entries_from i texts : length (entries_from i texts) = length texts.
Proof. apply length_imap. Qed.

Lemma lookup_entries_from i texts k :
  entries_from i texts !! k = entry_of (i + k) <$> texts !! k.
Proof. unfold entries_from. by rewrite list_lookup_imap. Qed.

(** One iteration appends one entry, numbered [i], holding the stripped
    text, and counts the page exactly when that text is empty. *)
Lemma loop_body_Return i pg st st' :
  loop_body i pg st = Return st' →
  ∃ t, extract_text pg = Return t
    ∧ acc_pages st' = acc_pages st ++ [entry_of i t]
    ∧ image_only_pages st' =
        image_only_pages st + image_only_count [entry_of i t].
Proof.
  unfold loop_body. intros (t & Ht & Hk)%bind_Return. exists t.
  injection Hk as <-. simpl. split; [done|]. split; [done|].
  rewrite image_only_count_cons. simpl.
  case_decide as Hs; [rewrite Hs|apply truthy_true in Hs; rewrite Hs];
    unfold image_only_count; simpl; lia.
Qed.

(** The loop as a whole: every page gave a text, the entries are numbered
    from [i] on in page order, and the counter grew by the number of
    empty texts. *)
Lemma pages_loop_Return ps : ∀ i st st',
  pages_loop i ps st = Return st' →
  ∃ texts, extract_text <$> ps = Return <$> texts
    ∧ acc_pages st' = acc_pages st ++ entries_from i texts
    ∧ image_only_pages st' =
        image_only_pages st + image_only_count (entries_from i texts).
Proof.
  induction ps as [|pg ps IH]; intros i st st' H.
  - injection H as <-. exists []. simpl. rewrite app_nil_r. split; [done|].
    split; [done|]. unfold image_only_count. simpl. lia.
  - simpl in H. apply bind_Return in H as (st1 & H1 & H).
    apply loop_body_Return in H1 as (t & Ht & Hp & Hc).
    apply IH in H as (texts & Hts & Hp' & Hc').
    exists (t :: texts). rewrite entries_from_cons. split; [|split].
    + rewrite !fmap_cons. by rewrite Ht, Hts.
    + rewrite Hp', Hp, <- app_assoc. done.
    + rewrite Hc', Hc, !image_only_count_cons.
      unfold image_only_count at 1. simpl. lia.
Qed.

(** The loop raises only if some page does. *)
Lemma pages_loop_total ps : ∀ i st,
  (∀ pg, pg ∈ ps → ∃ t, extract_text pg = Return t) →
  ∃ st', pages_loop i ps st = Return st'.
Proof.
  induction ps as [|pg ps IH]; intros i st H; [by eexists|].
  destruct (H pg) as [t Ht]; [by left|].
  simpl. unfold loop_body. rewrite Ht. simpl.
  apply IH. intros pg' Hin. apply H. by right.
Qed.

End Loop.

(** ** The result of [parse_pdf_bytes] *)

Section Result.

Import PyStrFacts.

(** The warnings [_extract_pages] computes from the counter [k] and the
    page count [total]. *)
Lemma extract_pages_Return reader pages warnings :
  _extract_pages reader = Return (pages, warnings) →
  ∃ texts,
    extract_text <$> reader_pages reader = Return <$> texts
    ∧ length texts = length (reader_pages reader)
    ∧ pages = entries_from 1 texts
    ∧ warnings =
        let k := image_only_count pages in
        let total := length (reader_pages reader) in
        if (0 <? k)%nat then
          if (k =? total)%nat then [scanned_warning]
          else [partial_warning k total]
        else [].
Proof.
  unfold _extract_pages. intros (st & Hloop & Hret)%bind_Return.
  apply pages_loop_Return in Hloop as (texts & Hts & Hp & Hc).
  simpl in Hp, Hc. rewrite <- Hp in Hc.
  injection Hret as <- <-. exists texts. rewrite <- Hp, <- Hc.
  split; [done|]. split; [|done].
  apply (f_equal length) in Hts. by rewrite !length_fmap in Hts.
Qed.

Lemma parse_pdf_bytes_Return (PdfReader : PdfReaderT) data r :
  parse_pdf_bytes PdfReader data = Return r →
  ∃ reader,
    PdfReader data = Return reader
    ∧ metadata r = _extract_metadata reader
    ∧ _extract_pages reader = Return (pages r, warnings r).
Proof.
  unfold parse_pdf_bytes. intros (reader & Hrd & H)%bind_Return.
  apply bind_Return in H as ([ps ws] & Hpw & Hret).
  injection Hret as <-. by exists reader.
Qed.

(** The pages and the warnings of a result, in terms of the texts pypdf
    gave for the pages. *)
Lemma parse_pdf_bytes_pages (PdfReader : PdfReaderT) data r :
  parse_pdf_bytes PdfReader data = Return r →
  ∃ reader texts,
    PdfReader data = Return reader
    ∧ extract_text <$> reader_pages reader = Return <$> texts
    ∧ pages r = entries_from 1 texts
    ∧ num_pages (metadata r) = length texts.
Proof.
  intros (reader & Hrd & Hm & Hp)%parse_pdf_bytes_Return.
  apply extract_pages_Return in Hp as (texts & Hts & Hlen & Hp & _).
  exists reader, texts. by rewrite Hm, Hlen.
Qed.

Lemma parse_pdf_bytes_warnings (PdfReader : PdfReaderT) data r :
  parse_pdf_bytes PdfReader data = Return r →
  warnings r =
    let k := image_only_count (pages r) in
    let total := num_pages (metadata r) in
    if (0 <? k)%nat then
      if (k =? total)%nat then [scanned_warning]
      else [partial_warning k total]
    else [].
Proof.
  intros (reader & Hrd & Hm & Hp)%parse_pdf_bytes_Return.
  apply extract_pages_Return in Hp as (texts & _ & _ & _ & Hw).
  by rewrite Hm.
Qed.

(** [parse_pdf_bytes] returns a result as soon as pypdf builds a reader
    and gives a text for each of its pages. *)
Lemma parse_pdf_bytes_total (PdfReader : PdfReaderT) data reader :
  PdfReader data = Return reader →
  (∀ pg, pg ∈ reader_pages reader → ∃ t, extract_text pg = Return t) →
  ∃ r, parse_pdf_bytes PdfReader data = Return r.
Proof.
  intros Hrd Hpages. unfold parse_pdf_bytes, _extract_pages. rewrite Hrd.
  destruct (pages_loop_total (reader_pages reader) 1
              {| acc_pages := []; image_only_pages := 0 |} Hpages) as [st Hst].
  simpl. rewrite Hst. simpl. by eexists.
Qed.

(** C1. Whenever [parse_pdf_bytes] returns a result, the length of its
    [pages] list equals [metadata.num_pages]. *)
Theorem pages_length_is_num_pages (PdfReader : PdfReaderT) data r :
  parse_pdf_bytes PdfReader data = Return r →
  length (pages r) = num_pages (metadata r).
Proof.
  intros (reader & texts & _ & _ & -> & ->)%parse_pdf_bytes_pages.
  apply length_entries_from.
Qed.

(** C8. In every result the entry at position [i] (from 0) has page
    number [i + 1]; so the numbers start at 1 and strictly ascend. *)
Theorem page_numbers_ascending (PdfReader : PdfReaderT) data r :
  parse_pdf_bytes PdfReader data = Return r →
  (∀ i p, pages r !! i = Some p → page p = i + 1)
  ∧ (∀ i j p q, pages r !! i = Some p → pages r !! j = Some q →
       i < j → page p < page q).
Proof.
  intros (reader & texts & _ & _ & Hp & _)%parse_pdf_bytes_pages.
  assert (Hnum : ∀ i p, pages r !! i = Some p → page p = i + 1).
  { intros i p. rewrite Hp, lookup_entries_from.
    destruct (texts !! i); simpl; [|done]. intros [= <-]. simpl. lia. }
  split; [exact Hnum|].
  intros i j p q Hi Hj Hlt.
  rewrite (Hnum _ _ Hi), (Hnum _ _ Hj). lia.
Qed.

(** C2. The aggregate image-only warning, [k] being the number of
    image-only pages and [total] the page count: when [k = total > 0] the
    warnings are the single text that mentions scanned/image-only; when
    [0 < k < total] they are the single text that mentions [k] and
    [total]; when [k = 0] there is no warning. *)
Theorem image_only_warning_policy (PdfReader : PdfReaderT) data r :
  parse_pdf_bytes PdfReader data = Return r →
  let k := image_only_count (pages r) in
  let total := num_pages (metadata r) in
  (0 < k ∧ k = total →
     warnings r = [scanned_warning]
     ∧ contains "scanned/image-only" scanned_warning = true)
  ∧ (0 < k < total →
     ∃ w, warnings r = [w]
       ∧ contains (str_of_nat k) w = true
       ∧ contains (str_of_nat total) w = true
       ∧ contains "image-only" w = true)
  ∧ (k = 0 → warnings r = []).
Proof.
  intros H k total. pose proof (parse_pdf_bytes_warnings _ _ _ H) as Hw.
  cbv zeta in Hw. fold k total in Hw. rewrite Hw. clear Hw.
  split; [|split].
  - intros [Hk ->]. apply Nat.ltb_lt in Hk. rewrite Hk, Nat.eqb_refl.
    split; [done|]. by vm_compute.
  - intros [Hk Hlt]. apply Nat.ltb_lt in Hk. rewrite Hk.
    destruct (Nat.eqb_spec k total) as [?|_]; [lia|].
    exists (partial_warning k total). split; [done|].
    unfold partial_warning. split; [|split].
    + by apply (contains_intro _ _ EmptyString
        (" of " +:+ str_of_nat total +:+ " page(s) appear to be " +:+
         "image-only and yielded no extractable text.")).
    + apply (contains_intro _ _ (str_of_nat k +:+ " of ")
        (" page(s) appear to be " +:+
         "image-only and yielded no extractable text.")).
      by rewrite append_assoc.
    + apply (contains_intro _ _
        (str_of_nat k +:+ " of " +:+ str_of_nat total +:+
         " page(s) appear to be ")
        " and yielded no extractable text.").
      by rewrite !append_assoc.
  - intros ->. done.
Qed.

(** C5. For every page of the document: the result has an entry for it
    whose text is the stripped extracted text; the loop counts the page as
    image-only exactly when that text is the empty string; and the text
    neither starts nor ends with whitespace. *)
Theorem image_only_iff_empty_text (PdfReader : PdfReaderT) data r :
  parse_pdf_bytes PdfReader data = Return r →
  ∃ reader, PdfReader data = Return reader ∧
    ∀ i pg, reader_pages reader !! i = Some pg →
      ∃ t p,
        extract_text pg = Return t
        ∧ pages r !! i = Some p
        ∧ text p = strip (text_or_empty t)
        ∧ (∀ st, ∃ st',
             loop_body (i + 1) pg st = Return st'
             ∧ acc_pages st' = acc_pages st ++ [p]
             ∧ (image_only_pages st' = image_only_pages st + 1
                ↔ text p = EmptyString)
             ∧ (image_only_pages st' = image_only_pages st
                ↔ text p ≠ EmptyString))
        ∧ strip (text p) = text p
        ∧ (∀ c, first_char (text p) = Some c → isspace c = false)
        ∧ (∀ c, last_char (text p) = Some c → isspace c = false).
Proof.
  intros (reader & texts & Hrd & Hts & Hp & _)%parse_pdf_bytes_pages.
  exists reader. split; [done|]. intros i pg Hpg.
  apply (f_equal (.!! i)) in Hts. rewrite !list_lookup_fmap, Hpg in Hts.
  destruct (texts !! i) as [t|] eqn:Ht; [|done]. injection Hts as Hts.
  exists t, (entry_of (1 + i) t). split; [done|].
  split; [by rewrite Hp, lookup_entries_from, Ht|].
  split; [done|]. split; [|split; [|split]].
  - intros st. unfold loop_body. rewrite Hts. eexists. split; [done|].
    replace (i + 1) with (1 + i) by lia. unfold entry_of. simpl.
    split; [done|].
    destruct (strip (text_or_empty t)) as [|a s']; simpl;
      (split; split; intros; first [lia | congruence]).
  - apply strip_idempotent.
  - apply strip_first.
  - apply strip_last.
Qed.

Lemma metadata_or_empty_default m : metadata_or_empty m = default ∅ m.
Proof. destruct m as [d|]; [|done]. simpl. by case_decide. Qed.

Lemma _clean_reported v : reported_as v (_clean v).
Proof.
  unfold reported_as, _clean.
  destruct v as [v|]; [destruct (strip v) eqn:Hs; simpl|];
    repeat split; intros; simplify_eq; congruence.
Qed.

Lemma lookup_metadata_or_empty reader key :
  metadata_or_empty (reader_metadata reader) !! key = info_entry reader key.
Proof.
  rewrite metadata_or_empty_default. unfold info_entry.
  by destruct (reader_metadata reader).
Qed.

(** C3. Each of [title], [author] and [creation_date] of a result is the
    stripped value of the Info entry, and is absent, never the empty
    string, when the entry is missing or blank after stripping. *)
Theorem metadata_fields_trimmed_or_absent (PdfReader : PdfReaderT) data r :
  parse_pdf_bytes PdfReader data = Return r →
  ∃ reader, PdfReader data = Return reader
    ∧ reported_as (info_entry reader "/Title") (title (metadata r))
    ∧ reported_as (info_entry reader "/Author") (author (metadata r))
    ∧ reported_as (info_entry reader "/CreationDate")
        (creation_date (metadata r)).
Proof.
  intros (reader & Hrd & -> & _)%parse_pdf_bytes_Return.
  exists reader. split; [done|]. unfold _extract_metadata. simpl.
  rewrite !lookup_metadata_or_empty. auto using _clean_reported.
Qed.

(** C4, as amended. The warnings of a result are empty exactly when no
    page is image-only; damage that pypdf repaired plays no part. *)
Theorem warnings_empty_iff_no_image_only (PdfReader : PdfReaderT) data r :
  parse_pdf_bytes PdfReader data = Return r →
  warnings r = [] ↔ image_only_count (pages r) = 0.
Proof.
  intros H. rewrite (parse_pdf_bytes_warnings _ _ _ H). cbv zeta.
  destruct (Nat.ltb_spec 0 (image_only_count (pages r))) as [Hk|Hk].
  - destruct (_ =? _)%nat; split; first [discriminate | lia].
  - split; [lia|done].
Qed.

(** C10. On a path that names a regular file, [parse_pdf] gives what
    [parse_pdf_bytes] gives on the bytes of the file. *)
Theorem parse_pdf_reads_then_parses (fs : FileSystem) (PdfReader : PdfReaderT)
    path data :
  fs path = RegularFile data →
  parse_pdf fs PdfReader path = parse_pdf_bytes PdfReader data
  ∧ parse_pdf fs PdfReader path = read_then_parse fs PdfReader path.
Proof. intros H. unfold parse_pdf, read_then_parse. by rewrite H. Qed.

End Result.

(** ** The endpoints *)

Section Endpoints.

Import PyStrFacts.

Lemma handle_status not_found e :
  status (handle not_found e) =
    match exn_class e with
    | FileNotFoundError => if not_found then 404 else 500
    | PdfReadError => 422
    | _ => 500
    end%Z.
Proof. unfold handle. by destruct (exn_class e), not_found. Qed.

Lemma api_parse_path_status (fs : FileSystem) (PdfReader : PdfReaderT)
    request_json :
  requested_path request_json ≠ EmptyString →
  status (api_parse_path fs PdfReader request_json) =
    match parse_pdf fs PdfReader (requested_path request_json) with
    | Return _ => 200%Z
    | Raise e => status (handle true e)
    end.
Proof.
  intros Hp%truthy_true. unfold api_parse_path. fold (requested_path request_json).
  rewrite Hp. simpl. by destruct (parse_pdf _ _ _).
Qed.

(** C6. [parse_pdf] raises [FileNotFoundError] on a path that does not
    exist and [ValueError], a different class, on one that exists but is
    not a regular file. The path endpoint answers 404 on the first and 500
    on the second, and answers 404 only when a [FileNotFoundError] was
    raised: by the check of [parse_pdf] on a missing path, or else out of
    pypdf while parsing the bytes of a regular file. *)
Theorem path_errors_distinguished (fs : FileSystem) (PdfReader : PdfReaderT)
    request_json path :
  path = requested_path request_json →
  path ≠ EmptyString →
  let resp := api_parse_path fs PdfReader request_json in
  (fs path = Missing →
     (∃ msg, parse_pdf fs PdfReader path = Raise (Exn FileNotFoundError msg))
     ∧ status resp = 404%Z)
  ∧ (fs path = NotRegular →
     (∃ msg, parse_pdf fs PdfReader path = Raise (Exn ValueError msg))
     ∧ status resp = 500%Z)
  ∧ FileNotFoundError ≠ ValueError
  ∧ (status resp = 404%Z →
     fs path = Missing
     ∨ ∃ content e,
         fs path = RegularFile content
         ∧ parse_pdf_bytes PdfReader content = Raise e
         ∧ exn_class e = FileNotFoundError).
Proof.
  intros -> Hne resp. subst resp.
  rewrite (api_parse_path_status _ _ _ Hne).
  set (path := requested_path request_json). unfold parse_pdf.
  split; [|split; [|split; [done|]]].
  - intros ->. simpl. split; [by eexists|done].
  - intros ->. simpl. split; [by eexists|done].
  - destruct (fs path) as [| |content] eqn:Hfs; simpl; [by left|done|].
    destruct (parse_pdf_bytes PdfReader content) as [r|e] eqn:He; [done|].
    rewrite handle_status. intros Hs. right. exists content, e.
    by destruct (exn_class e).
Qed.

End Endpoints.

(** ** The properties on the sample inputs *)

Lemma sample_mixed_run :
  parse_pdf_bytes (sample_PdfReader false) sample_mixed = Return sample_mixed_result.
Proof. vm_compute. reflexivity. Qed.

Lemma sample_blank_run :
  parse_pdf_bytes (sample_PdfReader false) sample_blank = Return sample_blank_result.
Proof. vm_compute. reflexivity. Qed.

Lemma sample_text_run_repaired :
  parse_pdf_bytes (sample_PdfReader true) sample_text = Return sample_text_result.
Proof. vm_compute. reflexivity. Qed.

Lemma pages_length_is_num_pages_witness :
  parse_pdf_bytes (sample_PdfReader false) sample_mixed = Return sample_mixed_result
  ∧ length (pages sample_mixed_result) = num_pages (metadata sample_mixed_result).
Proof.
  split; [vm_compute; reflexivity|].
  apply (pages_length_is_num_pages (sample_PdfReader false) sample_mixed).
  vm_compute; reflexivity.
Defined.

Lemma page_numbers_ascending_witness :
  parse_pdf_bytes (sample_PdfReader false) sample_mixed = Return sample_mixed_result
  ∧ (∀ i p, pages sample_mixed_result !! i = Some p → page p = i + 1)
  ∧ (∀ i j p q, pages sample_mixed_result !! i = Some p →
       pages sample_mixed_result !! j = Some q → i < j → page p < page q).
Proof.
  split; [vm_compute; reflexivity|].
  apply (page_numbers_ascending (sample_PdfReader false) sample_mixed).
  vm_compute; reflexivity.
Defined.

(** One blank page out of three: the warning names 1 and 3. *)
Lemma image_only_warning_policy_witness :
  parse_pdf_bytes (sample_PdfReader false) sample_mixed = Return sample_mixed_result
  ∧ 0 < image_only_count (pages sample_mixed_result)
      < num_pages (metadata sample_mixed_result)
  ∧ ∃ w, warnings sample_mixed_result = [w]
      ∧ contains "1" w = true ∧ contains "3" w = true
      ∧ contains "image-only" w = true.
Proof.
  split; [vm_compute; reflexivity|].
  split; [vm_compute; lia|].
  apply (image_only_warning_policy (sample_PdfReader false) sample_mixed
           sample_mixed_result); [vm_compute; reflexivity|].
  vm_compute; lia.
Defined.

Lemma image_only_iff_empty_text_witness :
  parse_pdf_bytes (sample_PdfReader false) sample_mixed = Return sample_mixed_result
  ∧ ∃ reader, sample_PdfReader false sample_mixed = Return reader ∧
      ∀ i pg, reader_pages reader !! i = Some pg →
        ∃ t p,
          extract_text pg = Return t
          ∧ pages sample_mixed_result !! i = Some p
          ∧ text p = strip (text_or_empty t)
          ∧ (∀ st, ∃ st',
               loop_body (i + 1) pg st = Return st'
               ∧ acc_pages st' = acc_pages st ++ [p]
               ∧ (image_only_pages st' = image_only_pages st + 1
                  ↔ text p = EmptyString)
               ∧ (image_only_pages st' = image_only_pages st
                  ↔ text p ≠ EmptyString))
          ∧ strip (text p) = text p
          ∧ (∀ c, first_char (text p) = Some c → isspace c = false)
          ∧ (∀ c, last_char (text p) = Some c → isspace c = false).
Proof.
  split; [vm_compute; reflexivity|].
  apply (image_only_iff_empty_text (sample_PdfReader false) sample_mixed).
  vm_compute; reflexivity.
Defined.

(** The padded title is reported stripped, the blank author and the
    missing creation date as absent. *)
Lemma metadata_fields_trimmed_or_absent_witness :
  parse_pdf_bytes (sample_PdfReader false) sample_mixed = Return sample_mixed_result
  ∧ ∃ reader, sample_PdfReader false sample_mixed = Return reader
      ∧ reported_as (info_entry reader "/Title")
          (title (metadata sample_mixed_result))
      ∧ reported_as (info_entry reader "/Author")
          (author (metadata sample_mixed_result))
      ∧ reported_as (info_entry reader "/CreationDate")
          (creation_date (metadata sample_mixed_result)).
Proof.
  split; [vm_compute; reflexivity|].
  apply (metadata_fields_trimmed_or_absent (sample_PdfReader false) sample_mixed).
  vm_compute; reflexivity.
Defined.

Example sample_metadata_fields :
  info_entry {| reader_metadata := Some sample_info; reader_pages := [];
                reader_repaired := false |} "/Author" = Some "   "
  ∧ title (metadata sample_mixed_result) = Some "Annual report"
  ∧ author (metadata sample_mixed_result) = None
  ∧ creation_date (metadata sample_mixed_result) = None.
Proof. vm_compute. done. Qed.

(** C4, as stated, fails: pypdf repaired the document of this call, no
    page is image-only, and the warnings are empty all the same. *)
Lemma warnings_empty_despite_damage :
  ∃ reader r,
    sample_PdfReader true sample_text = Return reader
    ∧ parse_pdf_bytes (sample_PdfReader true) sample_text = Return r
    ∧ ¬ (warnings r = []
         ↔ image_only_count (pages r) = 0 ∧ reader_repaired reader = false).
Proof.
  eexists _, sample_text_result.
  split; [reflexivity|]. split; [vm_compute; reflexivity|].
  intros [Hw _]. by destruct (Hw eq_refl) as [_ ?].
Qed.

Lemma warnings_empty_iff_no_image_only_witness :
  parse_pdf_bytes (sample_PdfReader true) sample_text = Return sample_text_result
  ∧ (warnings sample_text_result = []
     ↔ image_only_count (pages sample_text_result) = 0).
Proof.
  split; [vm_compute; reflexivity|].
  apply (warnings_empty_iff_no_image_only (sample_PdfReader true) sample_text).
  vm_compute; reflexivity.
Defined.

Lemma parse_pdf_reads_then_parses_witness :
  sample_fs "/srv/a.pdf" = RegularFile sample_mixed
  ∧ parse_pdf sample_fs (sample_PdfReader false) "/srv/a.pdf" =
      parse_pdf_bytes (sample_PdfReader false) sample_mixed
  ∧ parse_pdf sample_fs (sample_PdfReader false) "/srv/a.pdf" =
      read_then_parse sample_fs (sample_PdfReader false) "/srv/a.pdf".
Proof.
  split; [reflexivity|].
  apply (parse_pdf_reads_then_parses sample_fs (sample_PdfReader false)
           "/srv/a.pdf" sample_mixed).
  reflexivity.
Defined.

(** A directory and a missing path, asked for through [/parse-url]. *)
Lemma path_errors_distinguished_witness :
  ("/srv" = requested_path (Some {[ "path" := " /srv " ]})
   ∧ "/srv" ≠ EmptyString
   ∧ sample_fs "/srv" = NotRegular
   ∧ (∃ msg, parse_pdf sample_fs (sample_PdfReader false) "/srv"
             = Raise (Exn ValueError msg))
   ∧ status (api_parse_path sample_fs (sample_PdfReader false)
               (Some {[ "path" := " /srv " ]})) = 500%Z)
  ∧ ("/nowhere.pdf" = requested_path (Some {[ "path" := "/nowhere.pdf" ]})
     ∧ "/nowhere.pdf" ≠ EmptyString
     ∧ sample_fs "/nowhere.pdf" = Missing
     ∧ (∃ msg, parse_pdf sample_fs (sample_PdfReader false) "/nowhere.pdf"
               = Raise (Exn FileNotFoundError msg))
     ∧ status (api_parse_path sample_fs (sample_PdfReader false)
                 (Some {[ "path" := "/nowhere.pdf" ]})) = 404%Z).
Proof.
  split.
  - split; [vm_compute; reflexivity|]. split; [discriminate|].
    split; [reflexivity|].
    apply (path_errors_distinguished sample_fs (sample_PdfReader false)
             (Some {[ "path" := " /srv " ]}) "/srv");
      [vm_compute; reflexivity|discriminate|reflexivity].
  - split; [vm_compute; reflexivity|]. split; [discriminate|].
    split; [reflexivity|].
    apply (path_errors_distinguished sample_fs (sample_PdfReader false)
             (Some {[ "path" := "/nowhere.pdf" ]}) "/nowhere.pdf");
      [vm_compute; reflexivity|discriminate|reflexivity].
Defined.

(** ** The error cases of tests/test_pdf_parser.py *)

Example test_parse_pdf_file_not_found :
  exn_class <$> match parse_pdf sample_fs (sample_PdfReader false)
                        "/nonexistent/path/file.pdf" with
                | Raise e => Some e
                | Return _ => None
                end = Some FileNotFoundError.
Proof. reflexivity. Qed.

Example test_parse_pdf_not_a_file :
  parse_pdf sample_fs (sample_PdfReader false) "/srv"
  = Raise (Exn ValueError "Path is not a file: /srv").
Proof. reflexivity. Qed.

Example test_api_parse_path_missing :
  status (api_parse_path sample_fs (sample_PdfReader false) (Some ∅)) = 400%Z.
Proof. reflexivity. Qed.

Example test_api_parse_path_not_found :
  status (api_parse_path sample_fs (sample_PdfReader false)
            (Some {[ "path" := "/nonexistent/file.pdf" ]})) = 404%Z.
Proof. vm_compute. reflexivity. Qed.

(** ** Further properties of the string operations *)

Module PyStrMore.

Import PyStrFacts.

Lemma all_space_app a b : all_space (a +:+ b) = all_space a && all_space b.
Proof.
  induction a as [|c a IH]; [done|].
  change (all_space (String c (a +:+ b)) = all_space (String c a) && all_space b).
  simpl. by rewrite IH, andb_assoc.
Qed.

Lemma lstrip_all_space s : all_space s = true → lstrip s = EmptyString.
Proof.
  induction s as [|c s IH]; [done|]. simpl.
  intros [Hc Hs]%andb_true_iff. rewrite Hc. auto.
Qed.

(** [s.strip()] is empty exactly when [s] holds nothing but whitespace. *)
Lemma strip_empty_iff s : strip s = EmptyString ↔ all_space s = true.
Proof.
  split.
  - intros H. destruct (strip_split s) as (p & q & Hs & Hp & Hq).
    rewrite H in Hs. rewrite Hs, !all_space_app, Hp, Hq. done.
  - intros H. unfold strip. by rewrite lstrip_all_space.
Qed.

Lemma length_append a b :
  String.length (a +:+ b) = String.length a + String.length b.
Proof.
  induction a as [|c a IH]; [done|].
  change (S (String.length (a +:+ b)) = S (String.length a + String.length b)).
  by rewrite IH.
Qed.

Lemma substring_full s : substring 0 (String.length s) s = s.
Proof. induction s as [|c s IH]; [done|]. simpl. by rewrite IH. Qed.

Lemma substring_app_r p b :
  substring (String.length p) (String.length b) (p +:+ b) = b.
Proof.
  induction p as [|c p IH]; [apply substring_full|].
  change (substring (S (String.length p)) (String.length b)
            (String c (p +:+ b)) = b).
  exact IH.
Qed.

Lemma substring_split s : ∀ k,
  k ≤ String.length s →
  s = substring 0 k s +:+ substring k (String.length s - k) s.
Proof.
  induction s as [|c s IH]; intros k Hk.
  - simpl in Hk. by replace k with 0 by lia.
  - destruct k as [|k].
    + change (String c s = substring 0 (S (String.length s)) (String c s)).
      simpl. by rewrite substring_full.
    + simpl in Hk.
      change (String c s =
              String c (substring 0 k s
                        +:+ substring k (String.length s - k) s)).
      f_equal. apply IH. lia.
Qed.

(** [s.endswith(suffix)] holds exactly when [s] is some string followed
    by [suffix]. *)
Lemma endswith_iff s suffix :
  endswith s suffix = true ↔ ∃ p, s = p +:+ suffix.
Proof.
  unfold endswith. split.
  - destruct (Nat.leb_spec (String.length suffix) (String.length s)) as [Hle|];
      [|done].
    intros Heq%String.eqb_eq.
    exists (substring 0 (String.length s - String.length suffix) s).
    pose proof (substring_split s (String.length s - String.length suffix))
      as Hsp.
    replace (String.length s - (String.length s - String.length suffix))
      with (String.length suffix) in Hsp by lia.
    rewrite Heq in Hsp. apply Hsp. lia.
  - intros [p ->]. rewrite length_append.
    destruct (Nat.leb_spec (String.length suffix)
                (String.length p + String.length suffix)) as [_|]; [|lia].
    replace (String.length p + String.length suffix - String.length suffix)
      with (String.length p) by lia.
    rewrite substring_app_r. apply String.eqb_refl.
Qed.

Lemma lower_app a b : lower (a +:+ b) = lower a +:+ lower b.
Proof.
  induction a as [|c a IH]; [done|].
  change (String (lower_char c) (lower (a +:+ b))
          = String (lower_char c) (lower a +:+ lower b)).
  by rewrite IH.
Qed.

Lemma lower_app_inv a : ∀ s b,
  lower s = a +:+ b → ∃ s1 s2, s = s1 +:+ s2 ∧ lower s1 = a ∧ lower s2 = b.
Proof.
  induction a as [|c a IH]; intros s b H.
  - by exists EmptyString, s.
  - destruct s as [|d s]; [done|].
    change (String (lower_char d) (lower s) = String c (a +:+ b)) in H.
    injection H as Hc Hs. destruct (IH _ _ Hs) as (s1 & s2 & -> & <- & <-).
    exists (String d s1), s2. by rewrite <- Hc.
Qed.

End PyStrMore.

(** ** Further properties of parser.py *)

Section ParserMore.

Import PyStrFacts PyStrMore.

Implicit Types (st : LoopState) (ps : list Page).

Lemma text_or_empty_Some s : text_or_empty (Some s) = s.
Proof. by destruct s. Qed.

(** Each entry of a result is the one made from the page at its index. *)
Lemma parse_pdf_bytes_entry (PdfReader : PdfReaderT) data r :
  parse_pdf_bytes PdfReader data = Return r →
  ∃ reader, PdfReader data = Return reader ∧
    ∀ i pg p, reader_pages reader !! i = Some pg → pages r !! i = Some p →
      ∃ t, extract_text pg = Return t ∧ p = entry_of (1 + i) t.
Proof.
  intros (reader & texts & Hrd & Hts & Hp & _)%parse_pdf_bytes_pages.
  exists reader. split; [done|]. intros i pg p Hpg Hi.
  apply (f_equal (.!! i)) in Hts. rewrite !list_lookup_fmap, Hpg in Hts.
  rewrite Hp, lookup_entries_from in Hi.
  destruct (texts !! i) as [t|]; [|done]. injection Hts as Hts.
  injection Hi as <-. by exists t.
Qed.

(** The text of an entry is empty exactly when pypdf gave no text for the
    page: [None], or a string of whitespace only (the empty string being
    one). *)
Theorem blank_iff_no_visible_text (PdfReader : PdfReaderT) data r :
  parse_pdf_bytes PdfReader data = Return r →
  ∃ reader, PdfReader data = Return reader ∧
    ∀ i pg p, reader_pages reader !! i = Some pg → pages r !! i = Some p →
      (text p = EmptyString ↔
       extract_text pg = Return None
       ∨ ∃ s, extract_text pg = Return (Some s) ∧ all_space s = true).
Proof.
  intros (reader & Hrd & Hentry)%parse_pdf_bytes_entry.
  exists reader. split; [done|]. intros i pg p Hpg Hp.
  destruct (Hentry i pg p Hpg Hp) as (t & Ht & ->).
  change (text (entry_of (1 + i) t)) with (strip (text_or_empty t)).
  rewrite Ht. destruct t as [s|].
  - rewrite text_or_empty_Some, strip_empty_iff. split.
    + intros Hs. right. by exists s.
    + intros [[=]|(s' & [= <-] & Hs)]. done.
  - split; [by left|done].
Qed.

(** The text of an entry is the raw text of its page with a run of
    whitespace taken off each end and nothing else changed. *)
Theorem text_is_raw_text_without_margins (PdfReader : PdfReaderT) data r :
  parse_pdf_bytes PdfReader data = Return r →
  ∃ reader, PdfReader data = Return reader ∧
    ∀ i pg p s,
      reader_pages reader !! i = Some pg → pages r !! i = Some p →
      extract_text pg = Return (Some s) →
      ∃ before after,
        s = before +:+ text p +:+ after
        ∧ all_space before = true ∧ all_space after = true.
Proof.
  intros (reader & Hrd & Hentry)%parse_pdf_bytes_entry.
  exists reader. split; [done|]. intros i pg p s Hpg Hp Hs.
  destruct (Hentry i pg p Hpg Hp) as (t & Ht & ->).
  rewrite Hs in Ht. injection Ht as <-.
  change (text (entry_of (1 + i) (Some s)))
    with (strip (text_or_empty (Some s))).
  rewrite text_or_empty_Some. apply strip_split.
Qed.

End ParserMore.

Section WarningsAndMetadata.

Import PyStrFacts PyStrMore.

(** A result never carries more than one warning, and never counts more
    image-only pages than the document has pages. *)
Theorem at_most_one_warning (PdfReader : PdfReaderT) data r :
  parse_pdf_bytes PdfReader data = Return r →
  length (warnings r) ≤ 1
  ∧ image_only_count (pages r) ≤ num_pages (metadata r).
Proof.
  intros H. split.
  - rewrite (parse_pdf_bytes_warnings _ _ _ H). cbv zeta.
    destruct (_ <? _)%nat; [destruct (_ =? _)%nat|]; simpl; lia.
  - apply parse_pdf_bytes_pages in H as (reader & texts & _ & _ & -> & ->).
    rewrite <- (length_entries_from 1 texts). apply image_only_count_le.
Qed.

(** A document without pages parses to a result without entries and
    without warning: the scanned-document warning needs at least one
    page. *)
Theorem empty_document_has_no_warning (PdfReader : PdfReaderT) data reader :
  PdfReader data = Return reader →
  reader_pages reader = [] →
  parse_pdf_bytes PdfReader data =
    Return {| metadata := _extract_metadata reader; pages := []; warnings := [] |}
  ∧ num_pages (_extract_metadata reader) = 0.
Proof.
  intros Hrd Hps. unfold parse_pdf_bytes, _extract_pages, _extract_metadata.
  rewrite Hrd. simpl. by rewrite Hps.
Qed.

(** Without an Info dictionary, or with an empty one, the three text
    fields of the metadata are absent and [num_pages] is still the page
    count. *)
Theorem no_info_dictionary (reader : Reader) :
  reader_metadata reader = None ∨ reader_metadata reader = Some ∅ →
  _extract_metadata reader =
    {| title := None; author := None; creation_date := None;
       num_pages := length (reader_pages reader) |}.
Proof.
  intros H. unfold _extract_metadata.
  assert (metadata_or_empty (reader_metadata reader) = ∅) as ->.
  { rewrite metadata_or_empty_default. by destruct H as [->| ->]. }
  by rewrite !lookup_empty.
Qed.

Lemma _clean_strip v v' : strip <$> v = strip <$> v' → _clean v = _clean v'.
Proof.
  destruct v as [s|], v' as [s'|]; simpl; try done.
  by intros [= ->].
Qed.

(** The metadata depends on the reader only through its page count and
    the stripped values of [/Title], [/Author] and [/CreationDate]: other
    entries of the Info dictionary, and whitespace around these three, do
    not show. *)
Theorem metadata_reads_three_entries (reader reader' : Reader) :
  length (reader_pages reader) = length (reader_pages reader') →
  (∀ key, key ∈ ["/Title"; "/Author"; "/CreationDate"] →
     strip <$> info_entry reader key = strip <$> info_entry reader' key) →
  _extract_metadata reader = _extract_metadata reader'.
Proof.
  intros Hlen Hkeys. unfold _extract_metadata.
  rewrite !lookup_metadata_or_empty, Hlen.
  rewrite (_clean_strip _ _ (Hkeys "/Title" ltac:(set_solver))).
  rewrite (_clean_strip _ _ (Hkeys "/Author" ltac:(set_solver))).
  by rewrite (_clean_strip _ _ (Hkeys "/CreationDate" ltac:(set_solver))).
Qed.

End WarningsAndMetadata.

(** ** Further properties of app.py *)

Section EndpointsMore.

Import PyStrFacts PyStrMore.


Lemma handle_status_cases not_found e :
  status (handle not_found e) = 404%Z
  ∨ status (handle not_found e) = 422%Z
  ∨ status (handle not_found e) = 500%Z.
Proof. rewrite handle_status. destruct (exn_class e), not_found; auto. Qed.

End EndpointsMore.

Section UploadMore.

Import PyStrFacts PyStrMore.

(** The file-name test of [/parse]: a name passes exactly when it is some
    string followed by [.pdf] in any mix of upper and lower case. *)
Lemma name_accepted_iff name :
  endswith (lower name) ".pdf" = true ↔
  ∃ stem ext, name = stem +:+ ext ∧ lower ext = ".pdf".
Proof.
  rewrite endswith_iff. split.
  - intros [p Hp]. apply lower_app_inv in Hp as (stem & ext & -> & _ & Hext).
    by exists stem, ext.
  - intros (stem & ext & -> & Hext). exists (lower stem).
    by rewrite lower_app, Hext.
Qed.

End UploadMore.

Section JsonAndCli.

Import PyStrFacts PyStrMore.

Lemma json_of_option_inj o o' : json_of_option o = json_of_option o' → o = o'.
Proof. destruct o, o'; simpl; congruence. Qed.

Lemma json_of_page_inj p p' : json_of_page p = json_of_page p' → p = p'.
Proof.
  destruct p as [n t], p' as [n' t']. unfold json_of_page. simpl.
  intros [= Hn ->]. apply Nat2Z.inj in Hn. by subst.
Qed.

Lemma fmap_list_inj {A B} (f : A → B) :
  (∀ x y, f x = f y → x = y) → ∀ l l' : list A, f <$> l = f <$> l' → l = l'.
Proof.
  intros Hf l. induction l as [|x l IH]; intros [|y l'] H; try done.
  rewrite !fmap_cons in H. injection H as Hxy Hl.
  f_equal; [by apply Hf|by apply IH].
Qed.

(** The JSON document of a result determines the result: two results
    that print alike are equal, an absent field (null) is told from every
    string, the empty one included. *)
Theorem json_of_result_injective r r' :
  json_of_result r = json_of_result r' → r = r'.
Proof.
  destruct r as [[t a c n] ps ws], r' as [[t' a' c' n'] ps' ws'].
  unfold json_of_result, json_of_metadata. simpl.
  intros [= Ht Ha Hc Hn Hps Hws].
  apply json_of_option_inj in Ht, Ha, Hc. apply Nat2Z.inj in Hn.
  apply (fmap_list_inj _ json_of_page_inj) in Hps.
  apply (fmap_list_inj JStr) in Hws; [|by intros ?? [=]].
  by subst.
Qed.

(** [_cli] ends with [sys.exit(1)], after the message of the exception on
    standard error and nothing on standard output, when the path is
    missing or is not a regular file; and it calls [sys.exit] only for a
    [FileNotFoundError] or a [ValueError] out of [parse_pdf], always with
    status 1. *)
Theorem cli_exits_on_bad_path (fs : FileSystem) (PdfReader : PdfReaderT)
    (print : PrintT) args :
  (fs (pdf args) = Missing ∨ fs (pdf args) = NotRegular →
   ∃ e, parse_pdf fs PdfReader (pdf args) = Raise e
     ∧ _cli fs PdfReader print args = CliExit 1 ("Error: " +:+ exn_msg e))
  ∧ (∀ code err, _cli fs PdfReader print args = CliExit code err →
       code = 1%Z
       ∧ ∃ e, parse_pdf fs PdfReader (pdf args) = Raise e
           ∧ (exn_class e = FileNotFoundError ∨ exn_class e = ValueError)
           ∧ err = "Error: " +:+ exn_msg e).
Proof.
  split.
  - unfold _cli, parse_pdf. intros [-> | ->]; simpl; by eexists.
  - intros code err. unfold _cli.
    destruct (parse_pdf fs PdfReader (pdf args)) as [r|e].
    { by destruct (print _). }
    destruct (exn_class e) eqn:Hcls; intros [= <- <-];
      (split; [done|]); exists e; rewrite Hcls; auto.
Qed.

(** A file that pypdf cannot read is not reported by [_cli]: the
    [PdfReadError] leaves it uncaught and the process ends with status 1
    and nothing printed, while [/parse-url] answers 422 for the same
    path. *)
Theorem cli_does_not_catch_PdfReadError (fs : FileSystem)
    (PdfReader : PdfReaderT) (print : PrintT) args content e request_json :
  fs (pdf args) = RegularFile content →
  parse_pdf_bytes PdfReader content = Raise e →
  exn_class e = PdfReadError →
  requested_path request_json = pdf args →
  pdf args ≠ EmptyString →
  _cli fs PdfReader print args = CliUncaught e
  ∧ exit_status (_cli fs PdfReader print args) = 1%Z
  ∧ status (api_parse_path fs PdfReader request_json) = 422%Z.
Proof.
  intros Hfs Hparse Hcls Hreq Hne.
  assert (Hpdf : parse_pdf fs PdfReader (pdf args) = Raise e).
  { unfold parse_pdf. by rewrite Hfs. }
  unfold _cli. rewrite Hpdf, Hcls. split; [done|]. split; [done|].
  rewrite api_parse_path_status by by rewrite Hreq.
  by rewrite Hreq, Hpdf, handle_status, Hcls.
Qed.

End JsonAndCli.

(** ** The further properties on the sample inputs *)

Lemma blank_iff_no_visible_text_witness :
  parse_pdf_bytes sample_padded_PdfReader sample_text = Return sample_padded_result
  ∧ ∃ reader, sample_padded_PdfReader sample_text = Return reader ∧
      ∀ i pg p, reader_pages reader !! i = Some pg →
        pages sample_padded_result !! i = Some p →
        (text p = EmptyString ↔
         extract_text pg = Return None
         ∨ ∃ s, extract_text pg = Return (Some s) ∧ all_space s = true).
Proof.
  split; [vm_compute; reflexivity|].
  apply (blank_iff_no_visible_text sample_padded_PdfReader sample_text).
  vm_compute; reflexivity.
Defined.

Lemma text_is_raw_text_without_margins_witness :
  parse_pdf_bytes sample_padded_PdfReader sample_text = Return sample_padded_result
  ∧ ∃ reader, sample_padded_PdfReader sample_text = Return reader ∧
      ∀ i pg p s,
        reader_pages reader !! i = Some pg →
        pages sample_padded_result !! i = Some p →
        extract_text pg = Return (Some s) →
        ∃ before after,
          s = before +:+ text p +:+ after
          ∧ all_space before = true ∧ all_space after = true.
Proof.
  split; [vm_compute; reflexivity|].
  apply (text_is_raw_text_without_margins sample_padded_PdfReader sample_text).
  vm_compute; reflexivity.
Defined.

Lemma at_most_one_warning_witness :
  parse_pdf_bytes (sample_PdfReader false) sample_blank = Return sample_blank_result
  ∧ length (warnings sample_blank_result) ≤ 1
  ∧ image_only_count (pages sample_blank_result)
      ≤ num_pages (metadata sample_blank_result).
Proof.
  split; [vm_compute; reflexivity|].
  apply (at_most_one_warning (sample_PdfReader false) sample_blank).
  vm_compute; reflexivity.
Defined.

Lemma empty_document_has_no_warning_witness :
  sample_empty_PdfReader sample_text = Return sample_empty_reader
  ∧ reader_pages sample_empty_reader = []
  ∧ parse_pdf_bytes sample_empty_PdfReader sample_text =
      Return {| metadata := _extract_metadata sample_empty_reader;
                pages := []; warnings := [] |}
  ∧ num_pages (_extract_metadata sample_empty_reader) = 0.
Proof.
  split; [reflexivity|]. split; [reflexivity|].
  apply (empty_document_has_no_warning sample_empty_PdfReader sample_text
           sample_empty_reader); reflexivity.
Defined.

Lemma no_info_dictionary_witness :
  (reader_metadata sample_broken_reader = None
   ∨ reader_metadata sample_broken_reader = Some ∅)
  ∧ _extract_metadata sample_broken_reader =
      {| title := None; author := None; creation_date := None;
         num_pages := 3 |}.
Proof.
  split; [left; reflexivity|].
  apply (no_info_dictionary sample_broken_reader). left; reflexivity.
Defined.

Lemma metadata_reads_three_entries_witness :
  length (reader_pages sample_reader_a) = length (reader_pages sample_reader_b)
  ∧ (∀ key, key ∈ ["/Title"; "/Author"; "/CreationDate"] →
       strip <$> info_entry sample_reader_a key
       = strip <$> info_entry sample_reader_b key)
  ∧ _extract_metadata sample_reader_a = _extract_metadata sample_reader_b.
Proof.
  assert (Hkeys : ∀ key, key ∈ ["/Title"; "/Author"; "/CreationDate"] →
            strip <$> info_entry sample_reader_a key
            = strip <$> info_entry sample_reader_b key).
  { intros key Hkey.
    repeat (apply elem_of_cons in Hkey as [->|Hkey]; [vm_compute; reflexivity|]).
    by apply elem_of_nil in Hkey. }
  split; [reflexivity|]. split; [exact Hkeys|].
  apply (metadata_reads_three_entries sample_reader_a sample_reader_b);
    [reflexivity|exact Hkeys].
Defined.

(** A result with an absent author and one whose author is the empty
    string print differently. *)
Lemma json_of_result_injective_witness :
  let r := sample_text_result in
  let r' := {| metadata := {| title := Some "Annual report";
                              author := Some EmptyString;
                              creation_date := None; num_pages := 1 |};
               pages := pages sample_text_result; warnings := [] |} in
  r ≠ r' ∧ json_of_result r ≠ json_of_result r'.
Proof.
  intros r r'. assert (Hne : r ≠ r') by discriminate.
  split; [exact Hne|].
  intros Heq. exact (Hne (json_of_result_injective r r' Heq)).
Defined.

Lemma cli_exits_on_bad_path_witness :
  let args := {| pdf := "/srv"; no_pages := false |} in
  (sample_fs (pdf args) = Missing ∨ sample_fs (pdf args) = NotRegular)
  ∧ ∃ e, parse_pdf sample_fs (sample_PdfReader false) (pdf args) = Raise e
      ∧ _cli sample_fs (sample_PdfReader false) sample_print args
        = CliExit 1 ("Error: " +:+ exn_msg e).
Proof.
  intros args. split; [right; reflexivity|].
  apply (cli_exits_on_bad_path sample_fs (sample_PdfReader false)
           sample_print args).
  right; reflexivity.
Defined.

Lemma cli_does_not_catch_PdfReadError_witness :
  let args := {| pdf := "/srv/a.pdf"; no_pages := false |} in
  let e := Exn PdfReadError "EOF marker not found" in
  let request_json : option (gmap string string) :=
    Some {[ "path" := "/srv/a.pdf" ]} in
  sample_fs (pdf args) = RegularFile sample_mixed
  ∧ parse_pdf_bytes sample_corrupt_PdfReader sample_mixed = Raise e
  ∧ _cli sample_fs sample_corrupt_PdfReader sample_print args = CliUncaught e
  ∧ exit_status (_cli sample_fs sample_corrupt_PdfReader sample_print args)
    = 1%Z
  ∧ status (api_parse_path sample_fs sample_corrupt_PdfReader request_json)
    = 422%Z.
Proof.
  intros args e request_json.
  split; [reflexivity|]. split; [reflexivity|].
  apply (cli_does_not_catch_PdfReadError sample_fs sample_corrupt_PdfReader
           sample_print args sample_mixed e request_json);
    [reflexivity|reflexivity|reflexivity|vm_compute; reflexivity|discriminate].
Defined.

(** ** The upload endpoint *)

Section Upload.

Import PyStrFacts PyStrMore.

Lemma json_of_result_shows r : json_shows (json_of_result r) r true.
Proof.
  unfold json_shows. split; [done|]. split; [|by split].
  exists (json_of_metadata (metadata r)).
  split; [done|]. split; [done|].
  unfold json_of_metadata.
  destruct (title (metadata r)), (author (metadata r)),
    (creation_date (metadata r)); by repeat split.
Qed.

Lemma handle_false_status e :
  if decide (exn_class e = PdfReadError)
  then status (handle false e) = 422%Z ∧ client_error (handle false e) = true
  else status (handle false e) = 500%Z ∧ server_error (handle false e) = true.
Proof.
  unfold client_error, server_error. rewrite handle_status.
  case_decide as Hcls; [by rewrite Hcls|]. by destruct (exn_class e).
Qed.

(** C7. The upload endpoint, Flask refusing every body over the
    configured length: the length configured is 50 MiB; a request over it
    gets 413 and [parse_pdf_bytes] is not called; nor is it called when
    Flask refuses the request for another reason; a request whose parts
    Flask hands over gets 400, again without a call, when it has no [file]
    part or the file name is empty or does not end in [.pdf] whatever the
    case of its letters. Any other request has its file bytes parsed
    once: a result comes back with status 200 as the JSON document that
    shows it, with the members [metadata], [pages] and [warnings]; a
    [PdfReadError] gives 422 and any other exception 500. *)
Theorem upload_endpoint_contract (flask : FlaskT) (PdfReader : PdfReaderT) req :
  enforces_ceiling flask →
  let served := api_parse_upload flask PdfReader req in
  MAX_CONTENT_LENGTH = 52428800%Z
  ∧ ((MAX_CONTENT_LENGTH < content_length req)%Z →
     engine_calls served = []
     ∧ status (response served) = 413%Z
     ∧ client_error (response served) = true)
  ∧ (∀ code, flask MAX_CONTENT_LENGTH req = Aborted code →
       engine_calls served = [] ∧ status (response served) = code)
  ∧ (∀ parts, flask MAX_CONTENT_LENGTH req = Parts parts →
       (parts !! "file" = None
        ∨ ∃ uploaded, parts !! "file" = Some uploaded
            ∧ (filename uploaded = EmptyString
               ∨ endswith (lower (filename uploaded)) ".pdf" = false)) →
       engine_calls served = []
       ∧ status (response served) = 400%Z
       ∧ client_error (response served) = true)
  ∧ (∀ parts uploaded,
       flask MAX_CONTENT_LENGTH req = Parts parts →
       parts !! "file" = Some uploaded →
       endswith (lower (filename uploaded)) ".pdf" = true →
       engine_calls served = [content uploaded]
       ∧ match parse_pdf_bytes PdfReader (content uploaded) with
         | Return result =>
             status (response served) = 200%Z
             ∧ ∃ j, body (response served) = JsonBody j
                 ∧ json_shows j result true
         | Raise e =>
             if decide (exn_class e = PdfReadError)
             then status (response served) = 422%Z
                  ∧ client_error (response served) = true
             else status (response served) = 500%Z
                  ∧ server_error (response served) = true
         end).
Proof.
  intros Hflask served. subst served. unfold api_parse_upload.
  split; [done|]. split; [|split; [|split]].
  - intros Hbig. by rewrite (Hflask _ _ Hbig).
  - intros code ->. done.
  - intros parts -> [Hnone|(up & Hup & Hname)]; [by rewrite Hnone|].
    rewrite Hup.
    destruct (String.eqb_spec (filename up) EmptyString) as [|Hne];
      [by repeat split|].
    destruct Hname as [Hname|Hname]; [done|]. rewrite Hname. by repeat split.
  - intros parts up -> Hup Hname. rewrite Hup.
    destruct (String.eqb_spec (filename up) EmptyString) as [Heq|_].
    { rewrite Heq in Hname. by vm_compute in Hname. }
    rewrite Hname. simpl. split; [done|].
    destruct (parse_pdf_bytes PdfReader (content up)) as [r|e].
    + split; [done|]. exists (json_of_result r). split; [done|].
      apply json_of_result_shows.
    + apply handle_false_status.
Qed.

End Upload.

Lemma sample_flask_enforces_ceiling : enforces_ceiling sample_flask.
Proof.
  intros limit req Hbig. unfold sample_flask.
  by destruct (Z.ltb_spec limit (content_length req)); [|lia].
Qed.

(** An upload named in capitals is parsed and shown; one over the
    ceiling, one that Flask refuses within the ceiling and one with
    another extension are turned away before the engine runs. *)
Lemma upload_endpoint_contract_witness :
  enforces_ceiling sample_flask
  ∧ (let served := api_parse_upload sample_flask (sample_PdfReader false)
                     (sample_upload "Report.PDF" 1000) in
     engine_calls served = [sample_mixed]
     ∧ status (response served) = 200%Z
     ∧ ∃ j, body (response served) = JsonBody j
         ∧ json_shows j sample_mixed_result true)
  ∧ (let served := api_parse_upload sample_flask (sample_PdfReader false)
                     (sample_upload "report.pdf" 52428801) in
     engine_calls served = []
     ∧ status (response served) = 413%Z
     ∧ client_error (response served) = true)
  ∧ (let served := api_parse_upload sample_flask (sample_PdfReader false)
                     (sample_upload "a.pdf" 501570) in
     engine_calls served = [] ∧ status (response served) = 413%Z)
  ∧ (let served := api_parse_upload sample_flask (sample_PdfReader false)
                     (sample_upload "report.txt" 1000) in
     engine_calls served = []
     ∧ status (response served) = 400%Z
     ∧ client_error (response served) = true).
Proof.
  split; [exact sample_flask_enforces_ceiling|].
  split; [|split; [|split]].
  - destruct (upload_endpoint_contract sample_flask (sample_PdfReader false)
                (sample_upload "Report.PDF" 1000)
                sample_flask_enforces_ceiling) as (_ & _ & _ & _ & Hok).
    specialize (Hok (files (sample_upload "Report.PDF" 1000))
                  {| filename := "Report.PDF"; content := sample_mixed |}).
    destruct Hok as [Hcalls Hresp];
      [vm_compute; reflexivity|reflexivity|vm_compute; reflexivity|].
    split; [exact Hcalls|].
    change (parse_pdf_bytes (sample_PdfReader false)
              (content {| filename := "Report.PDF"; content := sample_mixed |}))
      with (parse_pdf_bytes (sample_PdfReader false) sample_mixed) in Hresp.
    rewrite sample_mixed_run in Hresp. exact Hresp.
  - apply (upload_endpoint_contract sample_flask (sample_PdfReader false)
             (sample_upload "report.pdf" 52428801)
             sample_flask_enforces_ceiling).
    vm_compute. reflexivity.
  - destruct (upload_endpoint_contract sample_flask (sample_PdfReader false)
                (sample_upload "a.pdf" 501570)
                sample_flask_enforces_ceiling) as (_ & _ & Habort & _).
    apply Habort. vm_compute. reflexivity.
  - destruct (upload_endpoint_contract sample_flask (sample_PdfReader false)
                (sample_upload "report.txt" 1000)
                sample_flask_enforces_ceiling) as (_ & _ & _ & Hbad & _).
    apply (Hbad (files (sample_upload "report.txt" 1000)));
      [vm_compute; reflexivity|].
    right. eexists. split; [reflexivity|]. right. vm_compute. reflexivity.
Defined.

Example test_api_parse_upload_no_file :
  api_parse_upload sample_flask (sample_PdfReader false)
    {| content_length := 0; files := ∅ |}
  = reply (error_response "No file field in request" 400).
Proof. reflexivity. Qed.

Example test_api_parse_upload_wrong_extension :
  api_parse_upload sample_flask (sample_PdfReader false)
    (sample_upload "file.txt" 9)
  = reply (error_response "Uploaded file must be a PDF" 400).
Proof. vm_compute. reflexivity. Qed.

(** ** Further properties of the upload endpoint *)

Section UploadFurther.

Import PyStrFacts PyStrMore.

(** [parse_pdf_bytes] is not called exactly when Flask refused the request
    or the parts it handed over have no [file] part whose name passes the
    test; when it is called, it is called once, on the bytes of that
    part, and the answer is 200, 422 or 500, never 400. *)
Theorem upload_engine_called_iff (flask : FlaskT) (PdfReader : PdfReaderT) req :
  let served := api_parse_upload flask PdfReader req in
  (engine_calls served = [] ↔
   (∃ code, flask MAX_CONTENT_LENGTH req = Aborted code)
   ∨ ∃ parts, flask MAX_CONTENT_LENGTH req = Parts parts
       ∧ ∀ uploaded, parts !! "file" = Some uploaded →
           endswith (lower (filename uploaded)) ".pdf" = false)
  ∧ (engine_calls served ≠ [] →
     (∃ parts uploaded,
        flask MAX_CONTENT_LENGTH req = Parts parts
        ∧ parts !! "file" = Some uploaded
        ∧ engine_calls served = [content uploaded])
     ∧ (status (response served) = 200%Z
        ∨ status (response served) = 422%Z
        ∨ status (response served) = 500%Z)).
Proof.
  intros served. subst served. unfold api_parse_upload.
  destruct (flask MAX_CONTENT_LENGTH req) as [code|parts] eqn:Hflask.
  { split; [|done]. split; [|done]. intros _. left. by exists code. }
  destruct (parts !! "file") as [up|] eqn:Hup.
  2: { split; [|done]. split; [|done]. intros _. right. exists parts.
       split; [done|]. intros ? ?. congruence. }
  destruct (String.eqb_spec (filename up) EmptyString) as [Hempty|Hname].
  { split; [|done]. split; [|done]. intros _. right. exists parts.
    split; [done|]. intros uploaded Hu.
    assert (uploaded = up) as -> by congruence. by rewrite Hempty. }
  destruct (endswith (lower (filename up)) ".pdf") eqn:Hext; simpl.
  2: { split; [|done]. split; [|done]. intros _. right. exists parts.
       split; [done|]. intros uploaded Hu.
       by assert (uploaded = up) as -> by congruence. }
  split.
  - split; [done|]. intros [[code [=]]|(parts' & [= <-] & Hall)].
    specialize (Hall up Hup). congruence.
  - intros _. split; [by exists parts, up|].
    destruct (parse_pdf_bytes PdfReader (content up)) as [r|e]; [by left|].
    right. rewrite handle_status. destruct (exn_class e); auto.
Qed.

(** When Flask hands over the parts of a request and there is a [file]
    part, its bytes go to the engine exactly when the file name is some
    string followed by [.pdf] in any mix of upper and lower case; the
    bytes themselves are not looked at. *)
Theorem upload_parsed_iff_pdf_name (flask : FlaskT) (PdfReader : PdfReaderT)
    req parts uploaded :
  flask MAX_CONTENT_LENGTH req = Parts parts →
  parts !! "file" = Some uploaded →
  engine_calls (api_parse_upload flask PdfReader req) = [content uploaded] ↔
  ∃ stem ext, filename uploaded = stem +:+ ext ∧ lower ext = ".pdf".
Proof.
  intros Hflask Hup. rewrite <- name_accepted_iff.
  unfold api_parse_upload. rewrite Hflask, Hup.
  destruct (String.eqb_spec (filename uploaded) EmptyString) as [Hempty|_].
  { rewrite Hempty. by split. }
  by destruct (endswith (lower (filename uploaded)) ".pdf").
Qed.

(** Both endpoints answer alike: when [/parse] handed the bytes [data] to
    the engine, its response is the one [/parse-url] gives for a path that
    names a regular file holding [data], unless the engine raises a
    [FileNotFoundError] (404 from [/parse-url], 500 from [/parse]). *)
Theorem endpoints_agree (fs : FileSystem) (flask : FlaskT)
    (PdfReader : PdfReaderT) request_json req data :
  engine_calls (api_parse_upload flask PdfReader req) = [data] →
  requested_path request_json ≠ EmptyString →
  fs (requested_path request_json) = RegularFile data →
  match parse_pdf_bytes PdfReader data with
  | Return _ => True
  | Raise e => exn_class e ≠ FileNotFoundError
  end →
  api_parse_path fs PdfReader request_json
  = response (api_parse_upload flask PdfReader req).
Proof.
  intros Hcalls Hpath%truthy_true Hfs Hexn.
  unfold api_parse_path, parse_pdf. fold (requested_path request_json).
  rewrite Hpath, Hfs. simpl.
  unfold api_parse_upload in Hcalls |- *.
  destruct (flask MAX_CONTENT_LENGTH req) as [code|parts]; [done|].
  destruct (parts !! "file") as [up|]; [|done].
  destruct (String.eqb (filename up) EmptyString); [done|].
  destruct (negb (endswith (lower (filename up)) ".pdf")); [done|].
  simpl in Hcalls |- *. injection Hcalls as ->.
  destruct (parse_pdf_bytes PdfReader data) as [r|e]; [done|].
  unfold handle. by destruct (exn_class e).
Qed.

End UploadFurther.

(** ** Further properties of the path endpoint *)

Section PathFurther.

Import PyStrFacts PyStrMore.

Lemma requested_path_singleton v :
  requested_path (Some {[ "path" := v ]}) = strip v.
Proof. unfold requested_path. simpl. by rewrite lookup_singleton_eq. Qed.

Lemma api_parse_path_400_iff (fs : FileSystem) (PdfReader : PdfReaderT)
    request_json :
  status (api_parse_path fs PdfReader request_json) = 400%Z ↔
  requested_path request_json = EmptyString.
Proof.
  unfold api_parse_path. fold (requested_path request_json).
  destruct (requested_path request_json) as [|c p]; simpl; [done|].
  destruct (parse_pdf fs PdfReader (String c p)) as [r|e]; [done|].
  destruct (handle_status_cases true e) as [H|[H|H]]; by rewrite H.
Qed.

Lemma api_parse_path_400_response (fs : FileSystem) (PdfReader : PdfReaderT)
    request_json :
  requested_path request_json = EmptyString →
  api_parse_path fs PdfReader request_json
  = error_response "Missing 'path' in JSON body" 400.
Proof.
  intros H. unfold api_parse_path. fold (requested_path request_json).
  by rewrite H.
Qed.

(** [/parse-url] answers 400 exactly when the decoded body names no path:
    it is a false value (no JSON, null, an empty object ...) or an object
    that has no [path] member or one that is a string of whitespace only;
    the answer is then the same whatever the file system holds. When the
    body cannot be read for a path at all, the exception leaves the
    function and the answer is the 500 page. *)
Theorem path_endpoint_400_iff_no_path (fs : FileSystem)
    (PdfReader : PdfReaderT) got :
  let body := if py_truthy got then got else PyDict [] in
  let resp := api_parse_path_any fs PdfReader got in
  (status resp = 400%Z ↔
   ∃ members, body = PyDict members
     ∧ (dict_get "path" members = None
        ∨ ∃ v, dict_get "path" members = Some (PyStr v) ∧ all_space v = true))
  ∧ (status resp = 400%Z →
     resp = error_response "Missing 'path' in JSON body" 400)
  ∧ (malformed got → resp = internal_server_error).
Proof.
  intros body resp. subst resp. unfold api_parse_path_any, malformed.
  fold body. clearbody body.
  destruct body as [| | | | |items|members];
    try (split; [split; [done|by intros (? & ? & _)]|];
         split; [done|]; done).
  destruct (dict_get "path" members) as [other|] eqn:Hget; simpl.
  2: { rewrite api_parse_path_400_iff, requested_path_singleton.
       split; [|split].
       - split; [|done]. intros _. exists members. split; [done|]. by left.
       - intros _. apply api_parse_path_400_response.
         by rewrite requested_path_singleton.
       - intros [Hno|(ms & other & [= <-] & Hother & _)]; [|congruence].
         by destruct (Hno members). }
  destruct other as [| | | |v| |];
    try (split; [split;
                   [done
                   |intros (ms & [= <-] & [?|(v & ? & _)]); congruence]|];
         split; [done|]; done).
  rewrite api_parse_path_400_iff, requested_path_singleton, strip_empty_iff.
  split; [|split].
  - split.
    + intros Hv. exists members. split; [done|]. right. by exists v.
    + intros (ms & [= <-] & [?|(v' & Hv' & Hs)]); congruence.
  - intros Hv. apply api_parse_path_400_response.
    by rewrite requested_path_singleton, strip_empty_iff.
  - intros [Hno|(ms & other & [= <-] & Hother & Hstr)].
    + by destruct (Hno members).
    + rewrite Hget in Hother. injection Hother as <-. by destruct (Hstr v).
Qed.

(** [/parse-url] answers 200 exactly when the stripped path is not empty
    and names a regular file whose bytes [parse_pdf_bytes] turns into a
    result; the body is then the JSON document that shows that result. *)
Theorem path_endpoint_200_iff_parsed (fs : FileSystem)
    (PdfReader : PdfReaderT) request_json :
  (status (api_parse_path fs PdfReader request_json) = 200%Z ↔
   ∃ content r,
     requested_path request_json ≠ EmptyString
     ∧ fs (requested_path request_json) = RegularFile content
     ∧ parse_pdf_bytes PdfReader content = Return r)
  ∧ (∀ content r,
       requested_path request_json ≠ EmptyString →
       fs (requested_path request_json) = RegularFile content →
       parse_pdf_bytes PdfReader content = Return r →
       ∃ j, api_parse_path fs PdfReader request_json
            = {| status := 200; body := JsonBody j |}
          ∧ json_shows j r true).
Proof.
  unfold api_parse_path. fold (requested_path request_json).
  destruct (requested_path request_json) as [|c p] eqn:Hpath; simpl.
  { split; [|done]. split; [done|]. by intros (? & ? & ? & _). }
  unfold parse_pdf.
  destruct (fs (String c p)) as [| |content] eqn:Hfs; simpl.
  - split; [|done]. split; [done|]. by intros (? & ? & _ & ? & _).
  - split; [|done]. split; [done|]. by intros (? & ? & _ & ? & _).
  - destruct (parse_pdf_bytes PdfReader content) as [r|e] eqn:Hparse.
    + split.
      * split; [|done]. intros _. by exists content, r.
      * intros content' r' _ [= <-] Hr'. rewrite Hparse in Hr'.
        injection Hr' as <-. exists (json_of_result r).
        split; [done|]. apply json_of_result_shows.
    + split.
      * split.
        { destruct (handle_status_cases true e) as [H|[H|H]]; by rewrite H. }
        intros (content' & r & _ & [= <-] & Hr). congruence.
      * intros content' r _ [= <-] Hr. congruence.
Qed.


End PathFurther.

(** ** Further properties of the command line *)

Section CliFurther.

(** When [parse_pdf] returns a result, [_cli] hands [print] the JSON
    document that shows it, with its pages, or without them under
    [--no-pages] and then with the same [metadata] and [warnings]; it
    returns when [print] returns, and an exception of [print] (the text
    cannot be encoded for the terminal, the pipe is closed) leaves it
    uncaught. *)
Theorem cli_prints_result (fs : FileSystem) (PdfReader : PdfReaderT)
    (print : PrintT) args r :
  parse_pdf fs PdfReader (pdf args) = Return r →
  ∃ doc,
    json_shows doc r (negb (no_pages args))
    ∧ (∀ u, print doc = Return u →
         _cli fs PdfReader print args = CliPrinted doc)
    ∧ (∀ e, print doc = Raise e →
         _cli fs PdfReader print args = CliUncaught e).
Proof.
  intros H. unfold _cli. rewrite H.
  destruct (no_pages args); simpl.
  - exists (JObj [("metadata", json_of_metadata (metadata r));
                  ("warnings", JArr (JStr <$> warnings r))]).
    split; [|split; [intros u Hu|intros e He]].
    + destruct (json_of_result_shows r) as (_ & (m & Hm & Hfields) & _ & _).
      injection Hm as <-. split; [done|]. split; [|done].
      by exists (json_of_metadata (metadata r)).
    + change (filter (λ kv : string * json, kv.1 ≠ "pages") (result_items r))
        with [("metadata", json_of_metadata (metadata r));
              ("warnings", JArr (JStr <$> warnings r))].
      by rewrite Hu.
    + change (filter (λ kv : string * json, kv.1 ≠ "pages") (result_items r))
        with [("metadata", json_of_metadata (metadata r));
              ("warnings", JArr (JStr <$> warnings r))].
      by rewrite He.
  - exists (json_of_result r).
    split; [apply json_of_result_shows|].
    split; [intros u Hu|intros e He].
    + change (JObj (result_items r)) with (json_of_result r). by rewrite Hu.
    + change (JObj (result_items r)) with (json_of_result r). by rewrite He.
Qed.

End CliFurther.

(** ** The endpoints and the command line on the sample inputs *)

Lemma upload_engine_called_iff_witness :
  let served := api_parse_upload sample_flask (sample_PdfReader false)
                  (sample_upload "a.pdf" 501570) in
  (∃ code, sample_flask MAX_CONTENT_LENGTH (sample_upload "a.pdf" 501570)
           = Aborted code)
  ∧ engine_calls served = [].
Proof.
  intros served.
  assert (Hab : ∃ code,
            sample_flask MAX_CONTENT_LENGTH (sample_upload "a.pdf" 501570)
            = Aborted code) by (exists 413%Z; vm_compute; reflexivity).
  split; [exact Hab|].
  apply (proj1 (upload_engine_called_iff sample_flask (sample_PdfReader false)
                  (sample_upload "a.pdf" 501570))).
  left. exact Hab.
Defined.

Lemma upload_parsed_iff_pdf_name_witness :
  let req := sample_upload "Report.PDF" 1000 in
  let uploaded := {| filename := "Report.PDF"; content := sample_mixed |} in
  sample_flask MAX_CONTENT_LENGTH req = Parts (files req)
  ∧ files req !! "file" = Some uploaded
  ∧ (∃ stem ext, filename uploaded = stem +:+ ext ∧ lower ext = ".pdf")
  ∧ engine_calls (api_parse_upload sample_flask (sample_PdfReader false) req)
    = [content uploaded].
Proof.
  intros req uploaded.
  assert (Hname : ∃ stem ext,
            filename uploaded = stem +:+ ext ∧ lower ext = ".pdf").
  { exists "Report", ".PDF". split; vm_compute; reflexivity. }
  split; [vm_compute; reflexivity|]. split; [vm_compute; reflexivity|].
  split; [exact Hname|].
  apply (upload_parsed_iff_pdf_name sample_flask (sample_PdfReader false)
           req (files req) uploaded);
    [vm_compute; reflexivity|vm_compute; reflexivity|exact Hname].
Defined.

Lemma endpoints_agree_witness :
  let request_json : option (gmap string string) :=
    Some {[ "path" := "/srv/a.pdf" ]} in
  let req := sample_upload "a.pdf" 1000 in
  engine_calls (api_parse_upload sample_flask (sample_PdfReader false) req)
  = [sample_mixed]
  ∧ api_parse_path sample_fs (sample_PdfReader false) request_json
    = response (api_parse_upload sample_flask (sample_PdfReader false) req).
Proof.
  intros request_json req. split; [vm_compute; reflexivity|].
  apply (endpoints_agree sample_fs sample_flask (sample_PdfReader false)
           request_json req sample_mixed).
  - vm_compute; reflexivity.
  - vm_compute; discriminate.
  - vm_compute; reflexivity.
  - vm_compute. exact I.
Defined.

(** A body that is a list of one path names no path and gets the 500
    page; an object whose path is blank gets the 400. *)
Lemma path_endpoint_400_iff_no_path_witness :
  (malformed (PyList [PyStr "/srv"])
   ∧ api_parse_path_any sample_fs (sample_PdfReader false)
       (PyList [PyStr "/srv"]) = internal_server_error)
  ∧ ((∃ v, dict_get "path" [("path", PyStr "   ")] = Some (PyStr v)
        ∧ all_space v = true)
     ∧ status (api_parse_path_any sample_fs (sample_PdfReader false)
                 (PyDict [("path", PyStr "   ")])) = 400%Z).
Proof.
  split.
  - assert (Hbad : malformed (PyList [PyStr "/srv"])).
    { left. intros members. discriminate. }
    split; [exact Hbad|].
    apply (path_endpoint_400_iff_no_path sample_fs (sample_PdfReader false)
             (PyList [PyStr "/srv"])).
    exact Hbad.
  - assert (Hblank : ∃ v, dict_get "path" [("path", PyStr "   ")]
                          = Some (PyStr v) ∧ all_space v = true).
    { exists "   ". split; reflexivity. }
    split; [exact Hblank|].
    apply (proj1 (path_endpoint_400_iff_no_path sample_fs
                    (sample_PdfReader false) (PyDict [("path", PyStr "   ")]))).
    exists [("path", PyStr "   ")]. split; [reflexivity|]. right. exact Hblank.
Defined.

Lemma path_endpoint_200_iff_parsed_witness :
  let request_json : option (gmap string string) :=
    Some {[ "path" := " /srv/a.pdf " ]} in
  requested_path request_json ≠ EmptyString
  ∧ sample_fs (requested_path request_json) = RegularFile sample_mixed
  ∧ parse_pdf_bytes (sample_PdfReader false) sample_mixed
    = Return sample_mixed_result
  ∧ status (api_parse_path sample_fs (sample_PdfReader false) request_json)
    = 200%Z.
Proof.
  intros request_json. split; [vm_compute; discriminate|].
  split; [vm_compute; reflexivity|]. split; [vm_compute; reflexivity|].
  apply (proj1 (path_endpoint_200_iff_parsed sample_fs (sample_PdfReader false)
                  request_json)).
  exists sample_mixed, sample_mixed_result.
  split; [vm_compute; discriminate|]. split; vm_compute; reflexivity.
Defined.


(** With [--no-pages], on a standard output that takes everything and on
    one that is closed. *)
Lemma cli_prints_result_witness :
  let args := {| pdf := "/srv/a.pdf"; no_pages := true |} in
  parse_pdf sample_fs (sample_PdfReader false) (pdf args)
  = Return sample_mixed_result
  ∧ ∃ doc,
      json_shows doc sample_mixed_result false
      ∧ _cli sample_fs (sample_PdfReader false) sample_print args
        = CliPrinted doc
      ∧ _cli sample_fs (sample_PdfReader false) sample_closed_print args
        = CliUncaught (Exn OtherException "Broken pipe").
Proof.
  intros args.
  assert (Hparse : parse_pdf sample_fs (sample_PdfReader false) (pdf args)
                   = Return sample_mixed_result) by (vm_compute; reflexivity).
  split; [exact Hparse|].
  destruct (cli_prints_result sample_fs (sample_PdfReader false) sample_print
              args sample_mixed_result Hparse) as (doc & Hshows & Hok & _).
  destruct (cli_prints_result sample_fs (sample_PdfReader false)
              sample_closed_print args sample_mixed_result Hparse)
    as (doc' & _ & _ & Hclosed).
  exists doc. split; [exact Hshows|]. split.
  - apply (Hok ()). reflexivity.
  - apply (Hclosed (Exn OtherException "Broken pipe")). reflexivity.
Defined.

(** ** Properties of the builder of sample documents *)

Module TestPdfFacts.

Import PyStrFacts PyStrMore TestPdf.

Lemma substring_prefix piece rest :
  substring 0 (String.length piece) (piece +:+ rest) = piece.
Proof.
  induction piece as [|c piece IH].
  - change (substring 0 0 rest = EmptyString). by destruct rest.
  - change (String c (substring 0 (String.length piece) (piece +:+ rest))
            = String c piece).
    by rewrite IH.
Qed.

Lemma substring_middle before piece rest :
  substring (String.length before) (String.length piece)
    (before +:+ piece +:+ rest) = piece.
Proof.
  induction before as [|c before IH].
  - change (substring 0 (String.length piece) (piece +:+ rest) = piece).
    apply substring_prefix.
  - change (substring (String.length before) (String.length piece)
              (before +:+ piece +:+ rest) = piece).
    exact IH.
Qed.

Lemma slice_is_intro data off before piece rest :
  data = before +:+ piece +:+ rest →
  String.length before = off →
  slice_is data off piece = true.
Proof.
  intros -> <-. unfold slice_is. rewrite substring_middle.
  apply String.eqb_refl.
Qed.

Lemma add_obj_fst content b : (add_obj content b).1 = length (objects b) + 1.
Proof. done. Qed.

Lemma add_obj_objects content b :
  objects (add_obj content b).2
  = objects b ++ [_encode_obj (length (objects b) + 1) content].
Proof. done. Qed.

Lemma add_obj_buf content b :
  buf (add_obj content b).2
  = buf b +:+ _encode_obj (length (objects b) + 1) content.
Proof. done. Qed.

Lemma append_nil_r s : s +:+ EmptyString = s.
Proof.
  induction s as [|c s IH]; [done|].
  change (String c (s +:+ EmptyString) = String c s). by rewrite IH.
Qed.

(** [add_obj] keeps the builder indexed. *)
Lemma add_obj_indexed content b : indexed b → indexed (add_obj content b).2.
Proof.
  intros ([rest0 Hhead] & Hlen & Hnum & Hoff). split; [|split; [|split]].
  - rewrite add_obj_buf, Hhead, append_assoc. by eexists.
  - simpl. rewrite !length_app. simpl. lia.
  - intros k obj. rewrite add_obj_objects.
    intros Hk. apply lookup_app_Some in Hk as [Hk|[Hge Hk]]; [by apply Hnum|].
    destruct (k - length (objects b)) as [|d] eqn:Hd; [|done].
    simpl in Hk. injection Hk as <-.
    assert (k = length (objects b)) as -> by lia. by eexists.
  - intros k off obj. rewrite add_obj_buf, add_obj_objects. simpl.
    intros Hk Hobj. apply lookup_app_Some in Hk as [Hk|[Hge Hk]].
    + pose proof (lookup_lt_Some _ _ _ Hk) as Hlt.
      rewrite lookup_app_l in Hobj by lia.
      destruct (Hoff k off obj Hk Hobj) as (before & rest & Hbuf & Hbefore).
      exists before, (rest +:+ _encode_obj (length (objects b) + 1) content).
      split; [|done]. by rewrite Hbuf, !append_assoc.
    + destruct (k - length (offsets b)) as [|d] eqn:Hd; [|done].
      simpl in Hk. injection Hk as <-.
      assert (k = length (objects b)) as -> by lia.
      rewrite lookup_app_r in Hobj by lia.
      replace (length (objects b) - length (objects b)) with 0 in Hobj by lia.
      simpl in Hobj. injection Hobj as <-.
      exists (buf b), EmptyString. split; [|done].
      by rewrite append_nil_r.
Qed.

Lemma start_indexed : indexed start.
Proof.
  split; [|split; [done|split]].
  - exists EmptyString. simpl. by rewrite append_nil_r.
  - intros k obj Hk. done.
  - intros k off obj Hk. done.
Qed.

Lemma page_step_snd b nums text :
  (page_step (b, nums) text).2 = nums ++ [length (objects b) + 3].
Proof.
  unfold page_step. simpl. rewrite !length_app. simpl.
  do 2 f_equal. lia.
Qed.

Lemma page_step_objects b nums text :
  objects (page_step (b, nums) text).1
  = objects b
    ++ [ _encode_obj (length (objects b) + 1) (stream_content text);
         _encode_obj (length (objects b) + 2) font_content;
         _encode_obj (length (objects b) + 3)
           (page_content (length (objects b) + 2) (length (objects b) + 1)) ].
Proof.
  unfold page_step. simpl. rewrite !length_app. simpl.
  rewrite <- !app_assoc. simpl.
  replace (length (objects b) + 1 + 1) with (length (objects b) + 2) by lia.
  by replace (length (objects b) + 2 + 1) with (length (objects b) + 3) by lia.
Qed.

Lemma page_step_fst b nums text :
  (page_step (b, nums) text).1 =
    let b1 := (add_obj (stream_content text) b).2 in
    let b2 := (add_obj font_content b1).2 in
    (add_obj (page_content (add_obj font_content b1).1
                (add_obj (stream_content text) b).1) b2).2.
Proof. done. Qed.

Lemma page_step_indexed b nums text :
  indexed b → indexed (page_step (b, nums) text).1.
Proof.
  intros H. rewrite page_step_fst. cbv zeta.
  by do 3 apply add_obj_indexed.
Qed.

(** The loop over the page texts: the builder stays indexed, every text
    adds three objects, and the page objects are each the third of
    theirs. *)
Lemma foldl_page_step texts : ∀ st,
  indexed st.1 →
  indexed (foldl page_step st texts).1
  ∧ length (objects (foldl page_step st texts).1)
    = length (objects st.1) + 3 * length texts
  ∧ (foldl page_step st texts).2
    = st.2 ++ imap (λ i _, length (objects st.1) + 3 * (i + 1)) texts.
Proof.
  induction texts as [|text texts IH]; intros [b nums] Hb.
  - simpl. rewrite app_nil_r. split; [done|]. split; [lia|done].
  - change (foldl page_step (b, nums) (text :: texts))
      with (foldl page_step (page_step (b, nums) text) texts).
    destruct (IH (page_step (b, nums) text)) as (Hi & Hlen & Hnums).
    { apply page_step_indexed. exact Hb. }
    assert (Hobj : length (objects (page_step (b, nums) text).1)
                   = length (objects b) + 3).
    { rewrite page_step_objects, length_app. simpl. lia. }
    split; [done|]. split.
    + rewrite Hlen, Hobj. simpl. lia.
    + rewrite Hnums, Hobj, page_step_snd, <- app_assoc, imap_cons.
      cbn [fst snd app]. apply (f_equal (app nums)).
      apply (f_equal2 cons); [lia|].
      apply imap_ext. intros i x _. simpl. lia.
Qed.

(** The objects written for the page at index [i]: its content stream,
    its font and the page itself, in this order. *)
Lemma foldl_page_step_lookup texts : ∀ st i text,
  texts !! i = Some text →
  let m := length (objects st.1) + 3 * i in
  let objs := objects (foldl page_step st texts).1 in
  objs !! m = Some (_encode_obj (m + 1) (stream_content text))
  ∧ objs !! (m + 1) = Some (_encode_obj (m + 2) font_content)
  ∧ objs !! (m + 2)
    = Some (_encode_obj (m + 3) (page_content (m + 2) (m + 1))).
Proof.
  assert (Hext : ∀ texts st, ∃ more,
            objects (foldl page_step st texts).1 = objects st.1 ++ more).
  { intros texts'. induction texts' as [|t texts' IH]; intros [b nums].
    - exists []. simpl. by rewrite app_nil_r.
    - change (foldl page_step (b, nums) (t :: texts'))
        with (foldl page_step (page_step (b, nums) t) texts').
      destruct (IH (page_step (b, nums) t)) as [more Hmore].
      rewrite Hmore, page_step_objects, <- app_assoc. by eexists. }
  induction texts as [|t texts IH]; intros [b nums] i text Hi; [done|].
  change (foldl page_step (b, nums) (t :: texts))
    with (foldl page_step (page_step (b, nums) t) texts).
  destruct i as [|i].
  - injection Hi as ->. cbv zeta.
    destruct (Hext texts (page_step (b, nums) text)) as [more Hmore].
    rewrite Hmore, page_step_objects. simpl fst.
    replace (length (objects b) + 3 * 0) with (length (objects b)) by lia.
    rewrite <- !app_assoc.
    split; [|split]; rewrite lookup_app_r by lia.
    + by replace (length (objects b) - length (objects b)) with 0 by lia.
    + by replace (length (objects b) + 1 - length (objects b)) with 1 by lia.
    + by replace (length (objects b) + 2 - length (objects b)) with 2 by lia.
  - simpl in Hi. specialize (IH (page_step (b, nums) t) i text Hi).
    cbv zeta in IH |- *.
    assert (Hobj : length (objects (page_step (b, nums) t).1)
                   = length (objects b) + 3).
    { rewrite page_step_objects, length_app. simpl. lia. }
    rewrite Hobj in IH. simpl fst.
    by replace (length (objects b) + 3 * S i)
      with (length (objects b) + 3 + 3 * i) by lia.
Qed.

(** The lines of the cross-reference table are appended to its head. *)
Lemma foldl_xref_lines (line : nat → string) offs : ∀ head,
  ∃ lines, foldl (λ xref off, xref +:+ line off) head offs = head +:+ lines.
Proof.
  induction offs as [|off offs IH]; intros head.
  - exists EmptyString. simpl. by rewrite append_nil_r.
  - destruct (IH (head +:+ line off)) as [lines Hlines].
    exists (line off +:+ lines).
    change (foldl (λ xref off0, xref +:+ line off0) (head +:+ line off) offs
            = head +:+ line off +:+ lines).
    by rewrite Hlines, append_assoc.
Qed.

(** The table the loop over the offsets writes, in closed form. *)
Lemma foldl_xref_closed offs : ∀ head,
  foldl (λ xref off, xref +:+ xref_line off) head offs
  = head +:+ table_lines ((λ off, (zfill10 off, off)) <$> offs).
Proof.
  induction offs as [|off offs IH]; intros head.
  - simpl. by rewrite append_nil_r.
  - change (foldl (λ xref off0, xref +:+ xref_line off0)
              (head +:+ xref_line off) offs
            = head +:+ zfill10 off +:+ (" 00000 n " +:+ LF)
              +:+ table_lines ((λ off0, (zfill10 off0, off0)) <$> offs)).
    rewrite IH. unfold xref_line. by rewrite !append_assoc.
Qed.

Lemma length_zeros k :
  String.length (string_of_list_ascii (replicate k "0"%char)) = k.
Proof. induction k as [|k IH]; [done|]. simpl. by rewrite IH. Qed.

Lemma length_zfill10 off : 10 ≤ String.length (zfill10 off).
Proof. unfold zfill10. rewrite length_append, length_zeros. lia. Qed.

Lemma read_zeros k s d :
  NilEmpty.uint_of_string s = Some d →
  ∃ d', NilEmpty.uint_of_string
          (string_of_list_ascii (replicate k "0"%char) +:+ s) = Some d'
      ∧ Nat.of_uint d' = Nat.of_uint d.
Proof.
  intros Hs. induction k as [|k (d' & Hd' & Heq)]; [by exists d|].
  exists (Decimal.D0 d'). split; [|done].
  change (uint_of_char "0"
            (NilEmpty.uint_of_string
               (string_of_list_ascii (replicate k "0"%char) +:+ s))
          = Some (Decimal.D0 d')).
  by rewrite Hd'.
Qed.

(** The ten-digit field written for an offset reads as that offset. *)
Lemma read_nat_zfill10 off : read_nat (zfill10 off) = Some off.
Proof.
  pose proof (length_zfill10 off) as Hlen. unfold read_nat.
  destruct (zfill10 off) as [|c s] eqn:Hz; [simpl in Hlen; lia|].
  rewrite <- Hz. unfold zfill10, str_of_nat.
  destruct (read_zeros
              (10 - String.length
                      (NilEmpty.string_of_uint (Nat.to_uint off)))
              _ _ (NilEmpty.usu (Nat.to_uint off))) as (d' & -> & Heq).
  simpl. by rewrite Heq, DecimalNat.Unsigned.of_to.
Qed.

Section Built.

Variable pages_text : list string.

Let st := foldl page_step (start, []) pages_text.
Let L := run_make_pdf_bytes pages_text.
Let n := length pages_text.

Lemma loop_facts :
  indexed st.1
  ∧ length (objects st.1) = 3 * n
  ∧ st.2 = imap (λ i _, 3 * (i + 1)) pages_text.
Proof.
  destruct (foldl_page_step pages_text (start, []) start_indexed)
    as (Hi & Hlen & Hnums).
  split; [done|]. split; [exact Hlen|]. exact Hnums.
Qed.

Lemma built_is :
  built L
  = (add_obj (catalog_content (pages_num L))
       (add_obj (pages_content st.2 n) st.1).2).2.
Proof. done. Qed.

Lemma built_indexed : indexed (built L).
Proof.
  rewrite built_is. do 2 apply add_obj_indexed. apply loop_facts.
Qed.

Lemma built_objects_length : length (objects (built L)) = 3 * n + 2.
Proof.
  rewrite built_is, !add_obj_objects, !length_app.
  destruct loop_facts as (_ & -> & _). simpl. lia.
Qed.

Lemma result_is :
  ∃ lines,
    result L
    = (buf (built L) +:+ xref_head (total L) +:+ lines) +:+ trailer L.
Proof.
  destruct (foldl_xref_lines xref_line (offsets (built L))
              (xref_head (total L))) as [lines Hlines].
  exists lines. rewrite <- Hlines. done.
Qed.

Let entries := (λ off, (zfill10 off, off)) <$> offsets (built L).

Lemma total_is : total L = 3 * n + 3.
Proof.
  change (length (objects (built L)) + 1 = 3 * n + 3).
  rewrite built_objects_length. lia.
Qed.

Lemma pages_num_is : pages_num L = 3 * n + 1.
Proof.
  change (length (objects st.1) + 1 = 3 * n + 1).
  destruct loop_facts as (_ & -> & _). done.
Qed.

Lemma catalog_num_is : catalog_num L = 3 * n + 2.
Proof.
  change (length (objects (add_obj (pages_content st.2 n) st.1).2) + 1
          = 3 * n + 2).
  rewrite add_obj_objects, length_app.
  destruct loop_facts as (_ & -> & _). simpl. lia.
Qed.

(** The document as a whole: the buffer, the table and the trailer. *)
Lemma result_closed :
  _make_pdf_bytes pages_text
  = (buf (built L) +:+ xref_head (3 * n + 3) +:+ table_lines entries)
    +:+ trailer_text (3 * n + 3) (3 * n + 2) (String.length (buf (built L))).
Proof.
  change (_make_pdf_bytes pages_text)
    with ((buf (built L)
           +:+ foldl (λ xref off, xref +:+ xref_line off)
                 (xref_head (total L)) (offsets (built L)))
          +:+ trailer_text (total L) (catalog_num L)
                (String.length (buf (built L)))).
  by rewrite foldl_xref_closed, total_is, catalog_num_is.
Qed.

Lemma entries_lookup k digits off :
  entries !! k = Some (digits, off) ↔
  offsets (built L) !! k = Some off ∧ digits = zfill10 off.
Proof.
  unfold entries. rewrite list_lookup_fmap.
  destruct (offsets (built L) !! k) as [off'|]; simpl.
  - split; [by intros [= <- <-]|by intros [[= ->] ->]].
  - split; [done|by intros [? _]].
Qed.

Lemma table_holds : table_of (_make_pdf_bytes pages_text) (3 * n + 3) entries.
Proof.
  exists (buf (built L)),
    (trailer_text (3 * n + 3) (3 * n + 2) (String.length (buf (built L)))).
  split; [|split].
  - rewrite result_closed. unfold xref_head. by rewrite !append_assoc.
  - rewrite result_closed. unfold trailer_text.
    exists ((buf (built L) +:+ xref_head (3 * n + 3) +:+ table_lines entries)
            +:+ "trailer" +:+ LF +:+ "<< /Size " +:+ str_of_nat (3 * n + 3)
            +:+ " /Root " +:+ str_of_nat (3 * n + 2) +:+ " 0 R >>" +:+ LF).
    by rewrite !append_assoc.
  - intros k digits off [_ ->]%entries_lookup.
    split; [apply read_nat_zfill10|apply length_zfill10].
Qed.

(** Every object of the builder stands in the document, in full, at the
    offset the table lists for it. *)
Lemma object_in_document k obj :
  objects (built L) !! k = Some obj →
  ∃ off before rest,
    entries !! k = Some (zfill10 off, off)
    ∧ _make_pdf_bytes pages_text = before +:+ obj +:+ rest
    ∧ String.length before = off.
Proof.
  intros Hobj.
  destruct built_indexed as (_ & Hlen & _ & Hplaced).
  destruct (lookup_lt_is_Some_2 (offsets (built L)) k) as [off Hoff].
  { rewrite Hlen. by apply lookup_lt_Some in Hobj. }
  destruct (Hplaced k off obj Hoff Hobj) as (before & rest & Hbuf & Hbefore).
  exists off, before,
    ((rest +:+ xref_head (3 * n + 3) +:+ table_lines entries)
     +:+ trailer_text (3 * n + 3) (3 * n + 2)
           (String.length (before +:+ obj +:+ rest))).
  split; [by apply entries_lookup|]. split; [|done].
  rewrite result_closed, Hbuf. by rewrite !append_assoc.
Qed.

Lemma entries_length : length entries = 3 * n + 2.
Proof.
  unfold entries. rewrite length_fmap.
  destruct built_indexed as (_ & -> & _). apply built_objects_length.
Qed.

Lemma built_objects :
  objects (built L)
  = objects st.1
    ++ [ _encode_obj (3 * n + 1) (pages_content st.2 n);
         _encode_obj (3 * n + 2) (catalog_content (3 * n + 1)) ].
Proof.
  rewrite built_is, !add_obj_objects, <- app_assoc, length_app, pages_num_is.
  destruct loop_facts as (_ & -> & _). cbn [length app].
  by replace (3 * n + 1 + 1) with (3 * n + 2) by lia.
Qed.

End Built.

(** The cross-reference table of the document is right: the document
    names the place of its table; the table has a line for each of the
    [3 n + 2] objects; and at the offset each line gives, the document
    reads the head line of the object of that line. *)
Theorem xref_table_points_at_objects pages_text :
  let n := length pages_text in
  let out := _make_pdf_bytes pages_text in
  ∃ entries,
    table_of out (3 * n + 3) entries
    ∧ length entries = 3 * n + 2
    ∧ ∀ k digits off, entries !! k = Some (digits, off) →
        slice_is out off (str_of_nat (k + 1) +:+ " 0 obj" +:+ LF) = true.
Proof.
  intros n out. subst n out.
  exists ((λ off, (zfill10 off, off))
            <$> offsets (built (run_make_pdf_bytes pages_text))).
  split; [apply table_holds|]. split; [apply entries_length|].
  intros k digits off Hk.
  pose proof (built_indexed pages_text) as (_ & Hlen & Hnum & _).
  cbv zeta in Hlen, Hnum.
  destruct (lookup_lt_is_Some_2
              (objects (built (run_make_pdf_bytes pages_text))) k)
    as [obj Hobj].
  { rewrite <- Hlen, <- (length_fmap (λ off, (zfill10 off, off))).
    by apply lookup_lt_Some in Hk. }
  destruct (Hnum k obj Hobj) as [content ->].
  destruct (object_in_document pages_text k _ Hobj)
    as (off' & before & rest & Hk' & Hout & Hbefore).
  cbv zeta in Hk'. rewrite Hk in Hk'. injection Hk' as _ ->.
  apply (slice_is_intro _ _ before _
           (content +:+ (LF +:+ "endobj" +:+ LF) +:+ rest)); [|done].
  rewrite Hout. unfold _encode_obj. by rewrite !append_assoc.
Qed.

(** The frame of the document: it opens with the header line; it closes
    with the trailer, which gives the size [3 n + 3] and names object
    [3 n + 2] as the root, then [startxref], a number and the end-of-file
    mark; and at the place of that number the table begins, with the head
    line for [3 n + 3] entries. *)
Theorem document_frame pages_text :
  let n := length pages_text in
  let out := _make_pdf_bytes pages_text in
  slice_is out 0 ("%PDF-1.4" +:+ LF) = true
  ∧ ∃ before x,
      out = before
            +:+ ("trailer" +:+ LF +:+ "<< /Size " +:+ str_of_nat (3 * n + 3)
                 +:+ " /Root " +:+ str_of_nat (3 * n + 2) +:+ " 0 R >>" +:+ LF
                 +:+ "startxref" +:+ LF +:+ str_of_nat x +:+ LF
                 +:+ "%%EOF" +:+ LF)
      ∧ slice_is out x ("xref" +:+ LF +:+ "0 " +:+ str_of_nat (3 * n + 3) +:+ LF)
        = true.
Proof.
  intros n out. subst n out.
  pose proof (built_indexed pages_text) as ([rest Hhead] & _).
  pose proof (result_closed pages_text) as Hres.
  cbv zeta in Hhead, Hres.
  set (b := built (run_make_pdf_bytes pages_text)) in *.
  set (lines := table_lines ((λ off, (zfill10 off, off)) <$> offsets b)) in *.
  split.
  - rewrite Hres, Hhead.
    apply (slice_is_intro _ _ EmptyString _
             ((rest +:+ xref_head (3 * length pages_text + 3) +:+ lines)
              +:+ trailer_text (3 * length pages_text + 3)
                    (3 * length pages_text + 2)
                    (String.length (_PDF_HEADER +:+ rest)))); [|done].
    change (EmptyString +:+ ?x) with x. unfold _PDF_HEADER.
    by rewrite !append_assoc.
  - exists (buf b +:+ xref_head (3 * length pages_text + 3) +:+ lines),
      (String.length (buf b)).
    split.
    + rewrite Hres. unfold trailer_text. by rewrite !append_assoc.
    + apply (slice_is_intro _ _ (buf b) _
               (("0000000000 65535 f " +:+ LF +:+ lines)
                +:+ trailer_text (3 * length pages_text + 3)
                      (3 * length pages_text + 2) (String.length (buf b))));
        [|done].
      rewrite Hres. unfold xref_head. by rewrite !append_assoc.
Qed.

(** The objects of a page, as the table finds them. For the page of
    index [i] with text [text], the lines [3 i], [3 i + 1] and [3 i + 2]
    of the table give the places of: object [3 i + 1], the content stream
    that shows [text], its [/Length] being the length of its data; object
    [3 i + 2], the font; and object [3 i + 3], the page, whose [/Font] and
    [/Contents] name the two objects before it. The [/Parent] it names,
    object 1, is not the Pages node, which is object [3 n + 1]. *)
Theorem page_objects_resolve pages_text i text :
  pages_text !! i = Some text →
  let n := length pages_text in
  let out := _make_pdf_bytes pages_text in
  let data :=
    "BT" +:+ LF +:+ "/F1 12 Tf" +:+ LF +:+ "50 750 Td" +:+ LF
    +:+ "(" +:+ text +:+ ") Tj" +:+ LF +:+ "ET" in
  ∃ entries d1 o1 d2 o2 d3 o3,
    table_of out (3 * n + 3) entries
    ∧ entries !! (3 * i) = Some (d1, o1)
    ∧ entries !! (3 * i + 1) = Some (d2, o2)
    ∧ entries !! (3 * i + 2) = Some (d3, o3)
    ∧ slice_is out o1
        (str_of_nat (3 * i + 1) +:+ " 0 obj" +:+ LF
         +:+ "<< /Length " +:+ str_of_nat (String.length data) +:+ " >>" +:+ LF
         +:+ "stream" +:+ LF +:+ data +:+ LF +:+ "endstream" +:+ LF
         +:+ "endobj" +:+ LF) = true
    ∧ slice_is out o2
        (str_of_nat (3 * i + 2) +:+ " 0 obj" +:+ LF
         +:+ "<< /Type /Font /Subtype /Type1 /BaseFont /Helvetica >>" +:+ LF
         +:+ "endobj" +:+ LF) = true
    ∧ slice_is out o3
        (str_of_nat (3 * i + 3) +:+ " 0 obj" +:+ LF
         +:+ "<< /Type /Page /MediaBox [0 0 612 792]" +:+ LF
         +:+ "   /Resources << /Font << /F1 " +:+ str_of_nat (3 * i + 2)
         +:+ " 0 R >> >>" +:+ LF
         +:+ "   /Contents " +:+ str_of_nat (3 * i + 1) +:+ " 0 R" +:+ LF
         +:+ "   /Parent 1 0 R >>" +:+ LF
         +:+ "endobj" +:+ LF) = true
    ∧ 3 * n + 1 ≠ 1.
Proof.
  intros Hi n out data. subst n out data.
  pose proof (lookup_lt_Some _ _ _ Hi) as Hlt.
  pose proof (foldl_page_step_lookup pages_text (start, []) i text Hi)
    as (H1 & H2 & H3).
  pose proof (loop_facts pages_text) as (_ & Hloop & _).
  pose proof (built_objects pages_text) as Hobjs.
  cbv zeta in H1, H2, H3, Hloop, Hobjs. simpl in H1, H2, H3.
  assert (Hin : ∀ k obj,
            k < 3 * length pages_text →
            objects (foldl page_step (start, []) pages_text).1 !! k = Some obj →
            objects (built (run_make_pdf_bytes pages_text)) !! k = Some obj).
  { intros k obj Hk Hobj. rewrite Hobjs, lookup_app_l by lia. done. }
  apply Hin in H1, H2, H3; try lia.
  destruct (object_in_document pages_text _ _ H1)
    as (o1 & before1 & rest1 & He1 & Hout1 & Hb1).
  destruct (object_in_document pages_text _ _ H2)
    as (o2 & before2 & rest2 & He2 & Hout2 & Hb2).
  destruct (object_in_document pages_text _ _ H3)
    as (o3 & before3 & rest3 & He3 & Hout3 & Hb3).
  cbv zeta in He1, He2, He3.
  exists ((λ off, (zfill10 off, off))
            <$> offsets (built (run_make_pdf_bytes pages_text))),
    (zfill10 o1), o1, (zfill10 o2), o2, (zfill10 o3), o3.
  split; [apply table_holds|].
  split; [exact He1|]. split; [exact He2|]. split; [exact He3|].
  split; [|split; [|split; [|lia]]].
  - apply (slice_is_intro _ _ before1 _ rest1); [|done].
    rewrite Hout1. unfold _encode_obj, stream_content, stream_data.
    by rewrite !append_assoc.
  - apply (slice_is_intro _ _ before2 _ rest2); [|done].
    rewrite Hout2. unfold _encode_obj, font_content.
    by rewrite !append_assoc.
  - apply (slice_is_intro _ _ before3 _ rest3); [|done].
    rewrite Hout3. unfold _encode_obj, page_content.
    by rewrite !append_assoc.
Qed.

(** The root of the document, as the table finds it. The line [3 n + 1]
    of the table gives the place of object [3 n + 2], the catalog the
    trailer names, whose [/Pages] is object [3 n + 1]; the line [3 n]
    gives the place of that object, the Pages node, whose [/Kids] are the
    objects [3], [6], ... [3 n], the pages, and whose [/Count] is [n]. *)
Theorem catalog_and_pages_node pages_text :
  let n := length pages_text in
  let out := _make_pdf_bytes pages_text in
  ∃ entries dp op dc oc,
    table_of out (3 * n + 3) entries
    ∧ entries !! (3 * n) = Some (dp, op)
    ∧ entries !! (3 * n + 1) = Some (dc, oc)
    ∧ slice_is out op
        (str_of_nat (3 * n + 1) +:+ " 0 obj" +:+ LF
         +:+ "<< /Type /Pages /Kids ["
         +:+ join " " ((λ i, str_of_nat (3 * (i + 1)) +:+ " 0 R") <$> seq 0 n)
         +:+ "] /Count " +:+ str_of_nat n +:+ " >>" +:+ LF
         +:+ "endobj" +:+ LF) = true
    ∧ slice_is out oc
        (str_of_nat (3 * n + 2) +:+ " 0 obj" +:+ LF
         +:+ "<< /Type /Catalog /Pages " +:+ str_of_nat (3 * n + 1)
         +:+ " 0 R >>" +:+ LF
         +:+ "endobj" +:+ LF) = true
    ∧ ∃ before x,
        out = before
              +:+ ("trailer" +:+ LF +:+ "<< /Size " +:+ str_of_nat (3 * n + 3)
                   +:+ " /Root " +:+ str_of_nat (3 * n + 2) +:+ " 0 R >>"
                   +:+ LF +:+ "startxref" +:+ LF +:+ str_of_nat x +:+ LF
                   +:+ "%%EOF" +:+ LF).
Proof.
  intros n out. subst n out.
  pose proof (loop_facts pages_text) as (_ & Hloop & Hnums).
  pose proof (built_objects pages_text) as Hobjs.
  pose proof (result_closed pages_text) as Hres.
  cbv zeta in Hloop, Hnums, Hobjs, Hres.
  assert (Hp : objects (built (run_make_pdf_bytes pages_text))
                 !! (3 * length pages_text)
               = Some (_encode_obj (3 * length pages_text + 1)
                         (pages_content
                            (foldl page_step (start, []) pages_text).2
                            (length pages_text)))).
  { rewrite Hobjs, lookup_app_r by lia.
    by replace (3 * length pages_text
                - length (objects (foldl page_step (start, []) pages_text).1))
      with 0 by lia. }
  assert (Hc : objects (built (run_make_pdf_bytes pages_text))
                 !! (3 * length pages_text + 1)
               = Some (_encode_obj (3 * length pages_text + 2)
                         (catalog_content (3 * length pages_text + 1)))).
  { rewrite Hobjs, lookup_app_r by lia.
    by replace (3 * length pages_text + 1
                - length (objects (foldl page_step (start, []) pages_text).1))
      with 1 by lia. }
  destruct (object_in_document pages_text _ _ Hp)
    as (op & beforep & restp & Hep & Houtp & Hbp).
  destruct (object_in_document pages_text _ _ Hc)
    as (oc & beforec & restc & Hec & Houtc & Hbc).
  cbv zeta in Hep, Hec.
  exists ((λ off, (zfill10 off, off))
            <$> offsets (built (run_make_pdf_bytes pages_text))),
    (zfill10 op), op, (zfill10 oc), oc.
  split; [apply table_holds|]. split; [exact Hep|]. split; [exact Hec|].
  split; [|split].
  - apply (slice_is_intro _ _ beforep _ restp); [|done].
    rewrite Houtp, Hnums. unfold _encode_obj, pages_content. cbv zeta.
    rewrite imap_seq_0, <- list_fmap_compose.
    by rewrite !append_assoc.
  - apply (slice_is_intro _ _ beforec _ restc); [|done].
    rewrite Houtc. unfold _encode_obj, catalog_content.
    by rewrite !append_assoc.
  - exists (buf (built (run_make_pdf_bytes pages_text))
            +:+ xref_head (3 * length pages_text + 3)
            +:+ table_lines
                  ((λ off, (zfill10 off, off))
                     <$> offsets (built (run_make_pdf_bytes pages_text)))),
      (String.length (buf (built (run_make_pdf_bytes pages_text)))).
    rewrite Hres. unfold trailer_text. by rewrite !append_assoc.
Qed.

(** The page theorem on a document of two pages, at its second page:
    the objects 4, 5 and 6. *)
Lemma page_objects_resolve_witness :
  ["Hello"; "World"] !! 1 = Some "World"
  ∧ ∃ entries d1 o1 d2 o2 d3 o3,
      table_of (_make_pdf_bytes ["Hello"; "World"]) 9 entries
      ∧ entries !! 3 = Some (d1, o1)
      ∧ entries !! 4 = Some (d2, o2)
      ∧ entries !! 5 = Some (d3, o3)
      ∧ slice_is (_make_pdf_bytes ["Hello"; "World"]) o1
          ("4 0 obj" +:+ LF +:+ "<< /Length 36 >>" +:+ LF +:+ "stream" +:+ LF
           +:+ "BT" +:+ LF +:+ "/F1 12 Tf" +:+ LF +:+ "50 750 Td" +:+ LF
           +:+ "(World) Tj" +:+ LF +:+ "ET" +:+ LF +:+ "endstream" +:+ LF
           +:+ "endobj" +:+ LF) = true
      ∧ slice_is (_make_pdf_bytes ["Hello"; "World"]) o2
          ("5 0 obj" +:+ LF
           +:+ "<< /Type /Font /Subtype /Type1 /BaseFont /Helvetica >>" +:+ LF
           +:+ "endobj" +:+ LF) = true
      ∧ slice_is (_make_pdf_bytes ["Hello"; "World"]) o3
          ("6 0 obj" +:+ LF
           +:+ "<< /Type /Page /MediaBox [0 0 612 792]" +:+ LF
           +:+ "   /Resources << /Font << /F1 5 0 R >> >>" +:+ LF
           +:+ "   /Contents 4 0 R" +:+ LF
           +:+ "   /Parent 1 0 R >>" +:+ LF
           +:+ "endobj" +:+ LF) = true
      ∧ 7 ≠ 1.
Proof.
  split; [reflexivity|].
  exact (page_objects_resolve ["Hello"; "World"] 1 "World" eq_refl).
Defined.

(** The document of one page with the text [Hi]: its five objects stand
    at the bytes 9, 92, 162, 297 and 354, and its table at byte 403. *)
Example one_page_document :
  offsets (built (run_make_pdf_bytes ["Hi"])) = [9; 92; 162; 297; 354]
  ∧ xref_offset (run_make_pdf_bytes ["Hi"]) = 403
  ∧ slice_is (_make_pdf_bytes ["Hi"]) 403 ("xref" +:+ LF +:+ "0 6" +:+ LF) = true
  ∧ slice_is (_make_pdf_bytes ["Hi"]) 297
      ("4 0 obj" +:+ LF +:+ "<< /Type /Pages /Kids [3 0 R] /Count 1 >>" +:+ LF
       +:+ "endobj" +:+ LF) = true.
Proof. vm_compute. done. Qed.

End TestPdfFacts.
